(** * Echo: the client-side authentication session

    A shallow embedding of the session store ([lib/store/authStore]), of the
    fetch-based client it calls ([authApi] in [lib/supabase]) and of the OAuth
    callback page, followed by the properties of the session life cycle.

    The operations are asynchronous in the source.  Here one operation runs
    from its call to the settlement of its promise: a computation threads the
    store, the list of requests sent so far and the console through, and
    either returns or throws.  The remote service is an oracle: it answers a
    request according to the request and to the number of requests sent
    before it, so that the same request may be answered differently at two
    moments (an access token that was valid and has expired). *)

From Stdlib Require Import String Ascii List Bool Arith Lia.
Import ListNotations.
Local Open Scope string_scope.
Local Open Scope list_scope.

Set Implicit Arguments.

(* ================================================================== *)
(** ** Values of the language *)

(** Truthiness of a string: only the empty string is falsy. *)
Definition nonempty (s : string) : bool :=
  match s with EmptyString => false | String _ _ => true end.

(** Truthiness of a value of type [string | null], as tested by
    [if (accessToken)] and [!refreshToken]. *)
Definition truthy (v : option string) : bool :=
  match v with None => false | Some s => nonempty s end.

(** [a || b] on a [string | null] left operand and a string right operand. *)
Definition or_string (a : option string) (b : string) : string :=
  match a with
  | Some s => if nonempty s then s else b
  | None => b
  end.

(** [!!user] on [User | null]: an object is truthy. *)
Definition is_some {A : Type} (v : option A) : bool :=
  match v with None => false | Some _ => true end.

(** An error object: its class and its message. *)
Record Error : Type := mkError { name : string; message : string }.

(** A number that came out of [JSON.parse], kept by what this program can
    observe of it: how it prints and whether it is zero (the only falsy
    numbers a JSON text can denote). *)
Record Number : Type := mkNumber { number_text : string; number_is_zero : bool }.

Set Warnings "-register-all".

(** The result of [JSON.parse]: the own properties of an object in the order
    of the text, a later duplicate having replaced an earlier one. *)
Inductive Json : Type :=
| JNull
| JBool (b : bool)
| JNumber (n : Number)
| JString (s : string)
| JArray (items : list Json)
| JObject (fields : list (string * Json)).

Fixpoint lookup {A : Type} (k : string) (l : list (string * A)) : option A :=
  match l with
  | [] => None
  | (k', v) :: rest => if String.eqb k k' then Some v else lookup k rest
  end.

(** [v || fallback] where [v] is the value of a property ([None] is
    [undefined]) and [fallback] a string. *)
Definition or_else (v : option Json) (fallback : string) : Json :=
  match v with
  | None | Some JNull | Some (JBool false) => JString fallback
  | Some (JNumber n) => if number_is_zero n then JString fallback else JNumber n
  | Some (JString s) => if nonempty s then JString s else JString fallback
  | Some w => w
  end.

(** [String(v)], the conversion the [Error] constructor applies to its
    argument.  An array prints its items joined by commas, [null] items as
    the empty string.  An object prints as [[object Object]], unless it has
    an own property [toString]: a JSON value is not callable, the inherited
    [valueOf] returns the object itself, and the conversion is a TypeError
    ([None]). *)
Fixpoint ToString (v : Json) : option string :=
  match v with
  | JNull => Some "null"
  | JBool true => Some "true"
  | JBool false => Some "false"
  | JNumber n => Some (number_text n)
  | JString s => Some s
  | JArray items =>
      (fix join (l : list Json) : option string :=
         match l with
         | [] => Some ""
         | x :: rest =>
             match (match x with JNull => Some "" | _ => ToString x end) with
             | None => None
             | Some sx =>
                 match rest with
                 | [] => Some sx
                 | _ :: _ =>
                     match join rest with
                     | None => None
                     | Some sr => Some (sx ++ "," ++ sr)%string
                     end
                 end
             end
         end) items
  | JObject fields =>
      if is_some (lookup "toString" fields) then None else Some "[object Object]"
  end.

(* ================================================================== *)
(** ** The data model ([lib/types]) *)

Record User : Type := mkUser {
  id : string;
  email : string;
  display_name : option string;
  github_username : option string;
  github_avatar_url : option string
}.

Module AuthResponse.
Record t : Type := make {
  user : User;
  access_token : string;
  refresh_token : string;
  token_type : string
}.
End AuthResponse.

(** The answer of the refresh endpoint.  The source gives it no type:
    [refreshTokens] reads [access_token] and [refresh_token] off the parsed
    body and stores them unchecked into fields of type [string | null].  A
    property that is absent or null is [None]. *)
Module RefreshResponse.
Record t : Type := make {
  access_token : option string;
  refresh_token : option string
}.
End RefreshResponse.

Record AuthState : Type := mkAuthState {
  user : option User;
  accessToken : option string;
  refreshToken : option string;
  isLoading : bool;
  isAuthenticated : bool
}.

(** The object [partialize] builds. *)
Module Persisted.
Record t : Type := make {
  accessToken : option string;
  refreshToken : option string;
  user : option User
}.
End Persisted.

(* ================================================================== *)
(** ** The remote service and the transport *)

(** [response.json()]: the body parses, at the type the TypeScript
    declarations give it, or the promise rejects with a SyntaxError. *)
Inductive Parsed (A : Type) : Type :=
| Malformed (e : Error)
| Body (a : A).
Arguments Malformed {A} e.
Arguments Body {A} a.

(** What [fetch] resolves with: [response.ok] is false and the body is the
    service's error payload, or it is true and the body is the result. *)
Inductive HttpResponse (A : Type) : Type :=
| NotOk (body : Parsed Json)
| Ok (body : Parsed A).
Arguments NotOk {A} body.
Arguments Ok {A} body.

(** The promise [fetch] returns rejects when no response arrives. *)
Inductive FetchResult (A : Type) : Type :=
| Rejected (e : Error)
| Responded (r : HttpResponse A).
Arguments Rejected {A} e.
Arguments Responded {A} r.

(** The requests [authApi] sends. *)
Inductive Request : Type :=
| POST_signup (email password : string) (display_name : option string)
| POST_login (email password : string)
| POST_logout (bearer : string)
| GET_me (bearer : string)
| POST_refresh (refresh_token : string).

(** The service, together with the network in front of it.  The first
    argument is the number of requests sent before this one.  The bodies of
    [login] and [signup] are taken at the type the source annotates them
    with ([AuthResponse]).  The body of [getMe] is not annotated and goes
    unchecked into the field [user] of type [User | null]: it is a user or
    [null] ([None]). *)
Record Remote : Type := mkRemote {
  on_signup : nat -> string -> string -> option string -> FetchResult AuthResponse.t;
  on_login : nat -> string -> string -> FetchResult AuthResponse.t;
  on_logout : nat -> string -> FetchResult Json;
  on_me : nat -> string -> FetchResult (option User);
  on_refresh : nat -> string -> FetchResult RefreshResponse.t
}.

(* ================================================================== *)
(** ** Computations *)

(** Everything an operation can read or change. *)
Record Store : Type := mkStore {
  session : AuthState;
  storage : option Persisted.t;        (* the entry [echo-auth-storage] *)
  requests : list Request;             (* sent so far, oldest first *)
  console : list (string * Error)      (* [console.error] lines *)
}.

Inductive Completion (A : Type) : Type :=
| Return (a : A)
| Throw (e : Error).
Arguments Return {A} a.
Arguments Throw {A} e.

Definition M (A : Type) : Type := Store -> Completion A * Store.

Definition ret {A : Type} (a : A) : M A := fun s => (Return a, s).

Definition throw {A : Type} (e : Error) : M A := fun s => (Throw e, s).

Definition bind {A B : Type} (c : M A) (k : A -> M B) : M B :=
  fun s =>
    match c s with
    | (Return a, s') => k a s'
    | (Throw e, s') => (Throw e, s')
    end.

(** [try { c } catch (error) { h error }] *)
Definition try_catch {A : Type} (c : M A) (h : Error -> M A) : M A :=
  fun s =>
    match c s with
    | (Return a, s') => (Return a, s')
    | (Throw e, s') => h e s'
    end.

(** [try { c } finally { f }]: [f] runs in both cases; when it completes
    normally the completion of [c] stands. *)
Definition try_finally {A : Type} (c : M A) (f : M unit) : M A :=
  fun s =>
    match c s with
    | (r, s') =>
        match f s' with
        | (Return _, s'') => (r, s'')
        | (Throw e, s'') => (Throw e, s'')
        end
    end.

Declare Scope js_scope.
Delimit Scope js_scope with js.
Notation "x <- c ;; k" := (bind c (fun x => k))
  (at level 100, c at next level, right associativity) : js_scope.
Notation "c ;; k" := (bind c (fun _ => k))
  (at level 100, right associativity) : js_scope.
Local Open Scope js_scope.

Definition console_error (label : string) (e : Error) : M unit :=
  fun s => (Return tt,
            {| session := session s; storage := storage s;
               requests := requests s; console := console s ++ [(label, e)] |}).

(** [await fetch(...)]: the request is recorded and the remote answers. *)
Definition fetch {A : Type} (rq : Request) (answer : nat -> FetchResult A)
  : M (HttpResponse A) :=
  fun s =>
    let s' := {| session := session s; storage := storage s;
                 requests := requests s ++ [rq]; console := console s |} in
    match answer (length (requests s)) with
    | Rejected e => (Throw e, s')
    | Responded r => (Return r, s')
    end.

(** [await response.json()] *)
Definition json {A : Type} (body : Parsed A) : M A :=
  match body with
  | Malformed e => throw e
  | Body a => ret a
  end.

(** [error.detail] on a parsed body: reading a property of [null] is a
    TypeError; a primitive or an array has no property of that name. *)
Definition detail (error : Json) : M (option Json) :=
  match error with
  | JNull =>
      throw (mkError "TypeError" "Cannot read properties of null (reading 'detail')")
  | JObject fields => ret (lookup "detail" fields)
  | _ => ret None
  end.

(** [new Error(v)] *)
Definition new_Error (v : Json) : M Error :=
  match ToString v with
  | Some text => ret (mkError "Error" text)
  | None => throw (mkError "TypeError" "Cannot convert object to primitive value")
  end.

(** The branch all five methods share:
    [const error = await response.json();
     throw new Error(error.detail || fallback);] *)
Definition reject_with {A : Type} (body : Parsed Json) (fallback : string) : M A :=
  error <- json body ;;
  d <- detail error ;;
  e <- new_Error (or_else d fallback) ;;
  throw e.

(* ================================================================== *)
(** ** [authApi]: the client of the auth endpoints *)

Module authApi.
Section WithRemote.

Variable remote : Remote.

Definition signup (email password : string) (displayName : option string)
  : M AuthResponse.t :=
  response <- fetch (POST_signup email password displayName)
                    (fun now => on_signup remote now email password displayName) ;;
  match response with
  | NotOk body => reject_with body "Signup failed"
  | Ok body => json body
  end.

Definition login (email password : string) : M AuthResponse.t :=
  response <- fetch (POST_login email password)
                    (fun now => on_login remote now email password) ;;
  match response with
  | NotOk body => reject_with body "Login failed"
  | Ok body => json body
  end.

Definition logout (accessToken : string) : M Json :=
  response <- fetch (POST_logout accessToken)
                    (fun now => on_logout remote now accessToken) ;;
  match response with
  | NotOk body => reject_with body "Logout failed"
  | Ok body => json body
  end.

Definition getMe (accessToken : string) : M (option User) :=
  response <- fetch (GET_me accessToken)
                    (fun now => on_me remote now accessToken) ;;
  match response with
  | NotOk body => reject_with body "Failed to fetch user"
  | Ok body => json body
  end.

Definition refreshToken (refreshToken : string) : M RefreshResponse.t :=
  response <- fetch (POST_refresh refreshToken)
                    (fun now => on_refresh remote now refreshToken) ;;
  match response with
  | NotOk body => reject_with body "Token refresh failed"
  | Ok body => json body
  end.

End WithRemote.
End authApi.

(* ================================================================== *)
(** ** [useAuthStore]: the persisted session store *)

(** One property of the object passed to [set]. *)
Inductive Assignment : Type :=
| user_ (v : option User)
| accessToken_ (v : option string)
| refreshToken_ (v : option string)
| isLoading_ (v : bool)
| isAuthenticated_ (v : bool).

Definition assign (s : AuthState) (a : Assignment) : AuthState :=
  match a with
  | user_ v =>
      {| user := v; accessToken := accessToken s; refreshToken := refreshToken s;
         isLoading := isLoading s; isAuthenticated := isAuthenticated s |}
  | accessToken_ v =>
      {| user := user s; accessToken := v; refreshToken := refreshToken s;
         isLoading := isLoading s; isAuthenticated := isAuthenticated s |}
  | refreshToken_ v =>
      {| user := user s; accessToken := accessToken s; refreshToken := v;
         isLoading := isLoading s; isAuthenticated := isAuthenticated s |}
  | isLoading_ v =>
      {| user := user s; accessToken := accessToken s; refreshToken := refreshToken s;
         isLoading := v; isAuthenticated := isAuthenticated s |}
  | isAuthenticated_ v =>
      {| user := user s; accessToken := accessToken s; refreshToken := refreshToken s;
         isLoading := isLoading s; isAuthenticated := v |}
  end.

Module useAuthStore.

(** The initial state. *)
Definition initial : AuthState :=
  {| user := None; accessToken := None; refreshToken := None;
     isLoading := true; isAuthenticated := false |}.

Definition partialize (state : AuthState) : Persisted.t :=
  {| Persisted.accessToken := accessToken state;
     Persisted.refreshToken := refreshToken state;
     Persisted.user := user state |}.

(** [get()] *)
Definition get : M AuthState := fun s => (Return (session s), s).

(** [set({...})] under the [persist] middleware of zustand, as the library
    documents it: the properties given are merged into the state, and the
    entry in storage is rewritten with the projection of the new state. *)
Definition set (partial : list Assignment) : M unit :=
  fun s =>
    let state := fold_left assign partial (session s) in
    (Return tt,
     {| session := state; storage := Some (partialize state);
        requests := requests s; console := console s |}).

(** What the middleware does when the store is created: the stored
    object, when there is one, is spread over the initial state. *)
Definition rehydrate (stored : option Persisted.t) : AuthState :=
  match stored with
  | None => initial
  | Some p =>
      {| user := Persisted.user p;
         accessToken := Persisted.accessToken p;
         refreshToken := Persisted.refreshToken p;
         isLoading := isLoading initial;
         isAuthenticated := isAuthenticated initial |}
  end.

(** The page is loaded again: the store is created anew over the same
    storage. *)
Definition reload : M unit :=
  fun s =>
    (Return tt,
     {| session := rehydrate (storage s); storage := storage s;
        requests := requests s; console := console s |}).

Section WithRemote.

Variable remote : Remote.

Definition setUser (user : option User) : M unit :=
  set [user_ user; isAuthenticated_ (is_some user); isLoading_ false].

Definition setTokens (accessToken refreshToken : string) : M unit :=
  set [accessToken_ (Some accessToken); refreshToken_ (Some refreshToken)].

Definition login (email password : string) : M unit :=
  set [isLoading_ true] ;;
  try_catch
    (response <- authApi.login remote email password ;;
     set [user_ (Some (AuthResponse.user response));
          accessToken_ (Some (AuthResponse.access_token response));
          refreshToken_ (Some (AuthResponse.refresh_token response));
          isAuthenticated_ true;
          isLoading_ false])
    (fun error =>
       set [isLoading_ false] ;;
       throw error).

Definition signup (email password : string) (displayName : option string)
  : M unit :=
  set [isLoading_ true] ;;
  try_catch
    (response <- authApi.signup remote email password displayName ;;
     set [user_ (Some (AuthResponse.user response));
          accessToken_ (Some (AuthResponse.access_token response));
          refreshToken_ (Some (AuthResponse.refresh_token response));
          isAuthenticated_ true;
          isLoading_ false])
    (fun error =>
       set [isLoading_ false] ;;
       throw error).

Definition logout : M unit :=
  state <- get ;;
  set [isLoading_ true] ;;
  try_finally
    (try_catch
       (match accessToken state with
        | Some token =>
            if nonempty token
            then (_ <- authApi.logout remote token ;; ret tt)
            else ret tt
        | None => ret tt
        end)
       (fun error => console_error "Logout error:" error))
    (set [user_ None; accessToken_ None; refreshToken_ None;
          isAuthenticated_ false; isLoading_ false]).

Definition refreshTokens : M bool :=
  state <- get ;;
  match refreshToken state with
  | None => ret false
  | Some token =>
      if negb (nonempty token) then ret false
      else
        try_catch
          (response <- authApi.refreshToken remote token ;;
           set [accessToken_ (RefreshResponse.access_token response);
                refreshToken_ (RefreshResponse.refresh_token response)] ;;
           ret true)
          (fun error =>
             console_error "Token refresh failed:" error ;;
             set [user_ None; accessToken_ None; refreshToken_ None;
                  isAuthenticated_ false] ;;
             ret false)
  end.

Definition checkAuth : M unit :=
  state <- get ;;
  set [isLoading_ true] ;;
  match accessToken state with
  | None => set [isLoading_ false]
  | Some token =>
      if negb (nonempty token) then set [isLoading_ false]
      else
        try_catch
          (user <- authApi.getMe remote token ;;
           set [user_ user; isAuthenticated_ true; isLoading_ false])
          (fun error =>
             (* Token might be expired, try to refresh *)
             refreshed <- refreshTokens ;;
             (* [returned] is true when the inner [return] was reached *)
             returned <-
               (if refreshed then
                  state' <- get ;;
                  match accessToken state' with
                  | None => ret false
                  | Some newToken =>
                      if negb (nonempty newToken) then ret false
                      else
                        try_catch
                          (user <- authApi.getMe remote newToken ;;
                           set [user_ user; isAuthenticated_ true;
                                isLoading_ false] ;;
                           ret true)
                          (fun _ => ret false)
                  end
                else ret false) ;;
             if returned then ret tt
             else
               set [user_ None; accessToken_ None; refreshToken_ None;
                    isAuthenticated_ false; isLoading_ false])
  end.

Definition handleOAuthCallback (accessToken refreshToken : string) : M unit :=
  set [isLoading_ true] ;;
  try_catch
    (set [accessToken_ (Some accessToken); refreshToken_ (Some refreshToken)] ;;
     user <- authApi.getMe remote accessToken ;;
     set [user_ user; isAuthenticated_ true; isLoading_ false])
    (fun error =>
       set [isLoading_ false; isAuthenticated_ false] ;;
       throw error).

End WithRemote.
End useAuthStore.

(* ================================================================== *)
(** ** The entry in storage as JSON *)

(** The storage [createJSONStorage] builds writes the entry with
    [JSON.stringify] and reads it with [JSON.parse].  [write] is the value
    the written text denotes, [read] the typed view of a parsed value
    ([None] when it is not the image of a projection). *)
Module JSONStorage.

Definition string_or_null (v : option string) : Json :=
  match v with None => JNull | Some s => JString s end.

(** A property whose value is [undefined] is left out of the text. *)
Definition optional (key : string) (v : option string) : list (string * Json) :=
  match v with None => [] | Some s => [(key, JString s)] end.

Definition of_user (u : User) : Json :=
  JObject ([("id", JString (id u)); ("email", JString (email u))]
           ++ optional "display_name" (display_name u)
           ++ optional "github_username" (github_username u)
           ++ optional "github_avatar_url" (github_avatar_url u)).

Definition write (p : Persisted.t) : Json :=
  JObject
    [("state",
      JObject
        [("accessToken", string_or_null (Persisted.accessToken p));
         ("refreshToken", string_or_null (Persisted.refreshToken p));
         ("user", match Persisted.user p with
                  | None => JNull
                  | Some u => of_user u
                  end)]);
     ("version", JNumber (mkNumber "0" true))].

Definition as_string (v : option Json) : option string :=
  match v with Some (JString s) => Some s | _ => None end.

Definition as_string_or_null (v : option Json) : option (option string) :=
  match v with
  | Some JNull => Some None
  | Some (JString s) => Some (Some s)
  | _ => None
  end.

Definition as_optional (v : option Json) : option (option string) :=
  match v with
  | None => Some None
  | Some (JString s) => Some (Some s)
  | _ => None
  end.

Definition as_user (v : Json) : option User :=
  match v with
  | JObject fields =>
      match as_string (lookup "id" fields), as_string (lookup "email" fields),
            as_optional (lookup "display_name" fields),
            as_optional (lookup "github_username" fields),
            as_optional (lookup "github_avatar_url" fields) with
      | Some i, Some e, Some d, Some g, Some a => Some (mkUser i e d g a)
      | _, _, _, _, _ => None
      end
  | _ => None
  end.

Definition as_user_or_null (v : option Json) : option (option User) :=
  match v with
  | Some JNull => Some None
  | Some w => match as_user w with Some u => Some (Some u) | None => None end
  | None => None
  end.

Definition read (entry : Json) : option Persisted.t :=
  match entry with
  | JObject fields =>
      match lookup "state" fields with
      | Some (JObject state) =>
          match as_string_or_null (lookup "accessToken" state),
                as_string_or_null (lookup "refreshToken" state),
                as_user_or_null (lookup "user" state) with
          | Some a, Some r, Some u => Some (Persisted.make a r u)
          | _, _, _ => None
          end
      | _ => None
      end
  | _ => None
  end.

End JSONStorage.

(* ================================================================== *)
(** ** The query of the callback address *)

Module URLSearchParams.

(** The pairs of a query, in the order of the text. *)
Definition t : Type := list (string * string).

(** [searchParams.get(name)]: the first value of that name, or [null]. *)
Definition get (params : t) (name : string) : option string := lookup name params.

Fixpoint split (sep : ascii) (s : string) : list string :=
  match s with
  | EmptyString => [EmptyString]
  | String c rest =>
      if Ascii.eqb c sep then EmptyString :: split sep rest
      else
        match split sep rest with
        | [] => [String c EmptyString]
        | w :: ws => String c w :: ws
        end
  end.

(** A sequence is cut at its first [=]; without one the value is empty. *)
Fixpoint cut (s : string) : string * string :=
  match s with
  | EmptyString => (EmptyString, EmptyString)
  | String c rest =>
      if Ascii.eqb c "="%char then (EmptyString, rest)
      else let (n, v) := cut rest in (String c n, v)
  end.

Fixpoint plus_to_space (s : string) : string :=
  match s with
  | EmptyString => EmptyString
  | String c rest =>
      String (if Ascii.eqb c "+"%char then " "%char else c) (plus_to_space rest)
  end.

Definition hex (c : ascii) : option nat :=
  let n := nat_of_ascii c in
  if ((48 <=? n) && (n <=? 57))%nat then Some (n - 48)
  else if ((65 <=? n) && (n <=? 70))%nat then Some (n - 55)
  else if ((97 <=? n) && (n <=? 102))%nat then Some (n - 87)
  else None.

(** A [%] followed by two hexadecimal digits is the byte they denote. *)
Fixpoint percent_decode (s : string) : string :=
  match s with
  | EmptyString => EmptyString
  | String c rest =>
      if Ascii.eqb c "%"%char then
        match rest with
        | String h (String l rest') =>
            match hex h, hex l with
            | Some a, Some b =>
                String (ascii_of_nat (16 * a + b)) (percent_decode rest')
            | _, _ => String c (percent_decode rest)
            end
        | _ => String c (percent_decode rest)
        end
      else String c (percent_decode rest)
  end.

(** The parser of [application/x-www-form-urlencoded] that builds the
    object [useSearchParams] returns, on a query without its leading [?].
    Strings are held as their UTF-8 bytes; a query whose escapes do not
    decode to UTF-8 is outside this model. *)
Definition parse (query : string) : t :=
  map (fun seq =>
         let (n, v) := cut seq in
         (percent_decode (plus_to_space n), percent_decode (plus_to_space v)))
      (filter nonempty (split "&"%char query)).

End URLSearchParams.

(* ================================================================== *)
(** ** [AuthCallbackPage] *)

Module AuthCallbackPage.

(** The state of the component and the navigations it asked for. *)
Record State : Type := mkState {
  error : option string;
  pushed : list string
}.

Definition mounted : State := {| error := None; pushed := [] |}.

Definition setError (msg : string) (page : State) : State :=
  {| error := Some msg; pushed := pushed page |}.

Definition router_push (path : string) (page : State) : State :=
  {| error := error page; pushed := pushed page ++ [path] |}.

(** The effect, over the action the component selects from the store.
    Every value thrown in this model is an [Error], so that
    [err instanceof Error ? err.message : ...] is [err.message]. *)
Definition processCallback (handleOAuthCallback : string -> string -> M unit)
    (searchParams : URLSearchParams.t) (page : State) : M State :=
  let accessToken := URLSearchParams.get searchParams "access_token" in
  let refreshToken := URLSearchParams.get searchParams "refresh_token" in
  let errorParam := URLSearchParams.get searchParams "error" in
  if truthy errorParam then
    ret (setError (or_string (URLSearchParams.get searchParams "error_description")
                             "Authentication failed") page)
  else
    match accessToken, refreshToken with
    | Some a, Some r =>
        if negb (nonempty a) || negb (nonempty r) then
          ret (setError "Missing authentication tokens" page)
        else
          try_catch
            (handleOAuthCallback a r ;;
             ret (router_push "/dashboard" page))
            (fun err => ret (setError (message err) page))
    | _, _ => ret (setError "Missing authentication tokens" page)
    end.

(** The effect as the page runs it. *)
Definition run (remote : Remote) (searchParams : URLSearchParams.t) : M State :=
  processCallback (useAuthStore.handleOAuthCallback remote) searchParams mounted.

End AuthCallbackPage.

(* ================================================================== *)
(** ** Sequences of operations *)

(** A call of one action of the store, or a reload of the page. *)
Inductive Operation : Type :=
| SetUser (user : option User)
| SetTokens (accessToken refreshToken : string)
| Login (email password : string)
| Signup (email password : string) (displayName : option string)
| Logout
| RefreshTokens
| CheckAuth
| HandleOAuthCallback (accessToken refreshToken : string)
| Reload.

Definition perform (remote : Remote) (op : Operation) : M unit :=
  match op with
  | SetUser u => useAuthStore.setUser u
  | SetTokens a r => useAuthStore.setTokens a r
  | Login e p => useAuthStore.login remote e p
  | Signup e p d => useAuthStore.signup remote e p d
  | Logout => useAuthStore.logout remote
  | RefreshTokens => (_ <- useAuthStore.refreshTokens remote ;; ret tt)
  | CheckAuth => useAuthStore.checkAuth remote
  | HandleOAuthCallback a r => useAuthStore.handleOAuthCallback remote a r
  | Reload => useAuthStore.reload
  end.

(** The store once the promise of the operation has settled, fulfilled or
    rejected. *)
Definition after (remote : Remote) (op : Operation) (s : Store) : Store :=
  snd (perform remote op s).

Definition after_all (remote : Remote) (ops : list Operation) (s : Store) : Store :=
  fold_left (fun s op => after remote op s) ops s.

(** The application starts: nothing stored, nothing sent. *)
Definition fresh : Store :=
  {| session := useAuthStore.initial; storage := None; requests := []; console := [] |}.

Definition reachable (remote : Remote) (s : Store) : Prop :=
  exists ops, s = after_all remote ops fresh.

(* ================================================================== *)
(** ** Vocabulary of the statements *)

(** The number of requests sent so far: the moment the next one leaves. *)
Definition now (s : Store) : nat := length (requests s).

(** The store once one more request has left. *)
Definition sent (rq : Request) (s : Store) : Store :=
  {| session := session s; storage := storage s;
     requests := requests s ++ [rq]; console := console s |}.

(** A call fails unless a response arrives with [response.ok] and a body
    that parses. *)
Definition fails {A : Type} (r : FetchResult A) : bool :=
  match r with
  | Responded (Ok (Body _)) => false
  | _ => true
  end.

(** The error thrown on an error payload that parsed. *)
Definition refusal (error : Json) (fallback : string) : Error :=
  match error with
  | JNull => mkError "TypeError" "Cannot read properties of null (reading 'detail')"
  | _ =>
      let d := match error with JObject fields => lookup "detail" fields | _ => None end in
      match ToString (or_else d fallback) with
      | Some text => mkError "Error" text
      | None => mkError "TypeError" "Cannot convert object to primitive value"
      end
  end.

(** How a method of [authApi] settles on an answer of the remote. *)
Definition settle {A : Type} (fallback : string) (r : FetchResult A) : Completion A :=
  match r with
  | Rejected e => Throw e
  | Responded (NotOk (Malformed e)) => Throw e
  | Responded (NotOk (Body error)) => Throw (refusal error fallback)
  | Responded (Ok (Malformed e)) => Throw e
  | Responded (Ok (Body a)) => Return a
  end.

(** The message the service gave: the [detail] of its error payload, when
    that is a string that is not empty. *)
Definition server_message {A : Type} (r : FetchResult A) : option string :=
  match r with
  | Responded (NotOk (Body (JObject fields))) =>
      match lookup "detail" fields with
      | Some (JString m) => if nonempty m then Some m else None
      | _ => None
      end
  | _ => None
  end.

(** The session after a sign-out. *)
Definition signed_out : AuthState :=
  {| user := None; accessToken := None; refreshToken := None;
     isLoading := false; isAuthenticated := false |}.

(** Both tokens or none. *)
Definition paired (a : AuthState) : Prop :=
  accessToken a <> None <-> refreshToken a <> None.

(** The last request sent was a fetch of the current user with [token],
    and it succeeded with the body [u], a user or [null]. *)
Definition identity_fetched (remote : Remote) (s : Store) (token : string)
    (u : option User) : Prop :=
  exists earlier,
    requests s = earlier ++ [GET_me token]
    /\ on_me remote (length earlier) token = Responded (Ok (Body u)).

(** What a failing call surfaces, by the answer that made it fail: the
    error of the transport when no response arrived, the error of the
    parser when the body is not JSON, and on an error payload that is an
    object, its [detail] when that is a string that is not empty and the
    fallback when it is absent or empty.  Other payloads are left open. *)
Definition surfaced {A : Type} (fallback : string) (r : FetchResult A) (e : Error)
  : Prop :=
  match r with
  | Rejected e0 => e = e0
  | Responded (NotOk (Malformed e0)) => e = e0
  | Responded (Ok (Malformed e0)) => e = e0
  | Responded (NotOk (Body (JObject fields))) =>
      match lookup "detail" fields with
      | Some (JString m) => e = mkError "Error" (if nonempty m then m else fallback)
      | Some _ => True
      | None => e = mkError "Error" fallback
      end
  | Responded (NotOk (Body _)) => True
  | Responded (Ok (Body _)) => False
  end.

(** The session is as it was, [isLoading] apart, which is false. *)
Definition untouched (before after : AuthState) : Prop :=
  user after = user before
  /\ accessToken after = accessToken before
  /\ refreshToken after = refreshToken before
  /\ isAuthenticated after = isAuthenticated before
  /\ isLoading after = false.

(** The failure of [login] as the specification words it: the message is
    the one the service gave, and the fallback otherwise. *)
Definition login_failure_as_specified (remote : Remote) (s : Store)
    (email password : string) : Prop :=
  fails (on_login remote (now s) email password) = true ->
  exists e s',
    useAuthStore.login remote email password s = (Throw e, s')
    /\ untouched (session s) (session s')
    /\ message e =
         match server_message (on_login remote (now s) email password) with
         | Some m => m
         | None => "Login failed"
         end.

(** [isAuthenticated] as the specification words it: it becomes true only
    on a successful fetch of the current user with the token held. *)
Definition provenance_as_specified (remote : Remote) (op : Operation) (s : Store)
  : Prop :=
  isAuthenticated (session s) = false ->
  isAuthenticated (session (after remote op s)) = true ->
  exists token u,
    identity_fetched remote (after remote op s) token u
    /\ accessToken (session (after remote op s)) = Some token.

(** [isAuthenticated] as the specification derives it from [user]. *)
Definition derived_as_specified (a : AuthState) : Prop :=
  isAuthenticated a = true <-> user a <> None.

(** What turns [isAuthenticated] from false to true, operation by
    operation. *)
Definition established (remote : Remote) (op : Operation) (s s' : Store) : Prop :=
  match op with
  | CheckAuth | HandleOAuthCallback _ _ =>
      exists token u,
        identity_fetched remote s' token u
        /\ accessToken (session s') = Some token
        /\ user (session s') = u
  | Login email password =>
      exists response,
        on_login remote (now s) email password = Responded (Ok (Body response))
        /\ user (session s') = Some (AuthResponse.user response)
        /\ accessToken (session s') = Some (AuthResponse.access_token response)
        /\ refreshToken (session s') = Some (AuthResponse.refresh_token response)
  | Signup email password displayName =>
      exists response,
        on_signup remote (now s) email password displayName
          = Responded (Ok (Body response))
        /\ user (session s') = Some (AuthResponse.user response)
        /\ accessToken (session s') = Some (AuthResponse.access_token response)
        /\ refreshToken (session s') = Some (AuthResponse.refresh_token response)
  | SetUser u => u <> None /\ user (session s') = u
  | SetTokens _ _ | Logout | RefreshTokens | Reload => False
  end.

(** The entry in storage is the projection of the session; before the
    first write there is none and the session is the initial one. *)
Definition synced (s : Store) : Prop :=
  match storage s with
  | None => session s = useAuthStore.initial
  | Some p => p = useAuthStore.partialize (session s)
  end.

(** Every refresh the service grants carries both tokens or neither. *)
Definition renews_both (remote : Remote) : Prop :=
  forall moment token renewed,
    on_refresh remote moment token = Responded (Ok (Body renewed)) ->
    RefreshResponse.access_token renewed <> None
    <-> RefreshResponse.refresh_token renewed <> None.

(** No fetch of the current user succeeds with the body [null]. *)
Definition answers_users (remote : Remote) : Prop :=
  forall moment token, on_me remote moment token <> Responded (Ok (Body None)).

(* ================================================================== *)
(** ** Services and stores of the examples *)

Definition alice : User := mkUser "1" "e@x.com" None None None.

Definition failed_to_fetch : Error := mkError "TypeError" "Failed to fetch".

Definition unauthorized : Json := JObject [("detail", JString "Token expired")].

(** No response ever arrives. *)
Definition offline : Remote :=
  {| on_signup := fun _ _ _ _ => Rejected failed_to_fetch;
     on_login := fun _ _ _ => Rejected failed_to_fetch;
     on_logout := fun _ _ => Rejected failed_to_fetch;
     on_me := fun _ _ => Rejected failed_to_fetch;
     on_refresh := fun _ _ => Rejected failed_to_fetch |}.

(** The first request finds the access token expired; later ones succeed. *)
Definition expiring : Remote :=
  {| on_signup := fun _ _ _ _ =>
       Responded (Ok (Body (AuthResponse.make alice "a" "b" "bearer")));
     on_login := fun _ _ _ =>
       Responded (Ok (Body (AuthResponse.make alice "a" "b" "bearer")));
     on_logout := fun _ _ => Responded (Ok (Body (JObject [])));
     on_me := fun moment _ =>
       if Nat.eqb moment 0 then Responded (NotOk (Body unauthorized))
       else Responded (Ok (Body (Some alice)));
     on_refresh := fun _ _ =>
       Responded (Ok (Body (RefreshResponse.make (Some "a2") (Some "b2")))) |}.

(** Credentials are accepted, bearer tokens never are. *)
Definition credentials_only : Remote :=
  {| on_signup := fun _ _ _ _ =>
       Responded (Ok (Body (AuthResponse.make alice "a" "b" "bearer")));
     on_login := fun _ _ _ =>
       Responded (Ok (Body (AuthResponse.make alice "a" "b" "bearer")));
     on_logout := fun _ _ => Responded (NotOk (Body unauthorized));
     on_me := fun _ _ => Responded (NotOk (Body unauthorized));
     on_refresh := fun _ _ => Responded (NotOk (Body unauthorized)) |}.

(** Every request is refused with a message. *)
Definition refusing : Remote :=
  let refused := JObject [("detail", JString "Invalid login credentials")] in
  {| on_signup := fun _ _ _ _ => Responded (NotOk (Body refused));
     on_login := fun _ _ _ => Responded (NotOk (Body refused));
     on_logout := fun _ _ => Responded (NotOk (Body refused));
     on_me := fun _ _ => Responded (NotOk (Body refused));
     on_refresh := fun _ _ => Responded (NotOk (Body refused)) |}.

(** Every request succeeds. *)
Definition serving : Remote :=
  {| on_signup := fun _ _ _ _ =>
       Responded (Ok (Body (AuthResponse.make alice "a" "b" "bearer")));
     on_login := fun _ _ _ =>
       Responded (Ok (Body (AuthResponse.make alice "a" "b" "bearer")));
     on_logout := fun _ _ => Responded (Ok (Body (JObject [])));
     on_me := fun _ _ => Responded (Ok (Body (Some alice)));
     on_refresh := fun _ _ =>
       Responded (Ok (Body (RefreshResponse.make (Some "a2") (Some "b2")))) |}.

(** Credentials are accepted; a refresh is granted with an access token
    alone, and every bearer token is answered [200] with the body [null]. *)
Definition careless : Remote :=
  {| on_signup := fun _ _ _ _ =>
       Responded (Ok (Body (AuthResponse.make alice "a" "b" "bearer")));
     on_login := fun _ _ _ =>
       Responded (Ok (Body (AuthResponse.make alice "a" "b" "bearer")));
     on_logout := fun _ _ => Responded (Ok (Body (JObject [])));
     on_me := fun _ _ => Responded (Ok (Body None));
     on_refresh := fun _ _ =>
       Responded (Ok (Body (RefreshResponse.make (Some "a2") None))) |}.

(** A session found in storage at startup, not yet checked. *)
Definition restored : Store :=
  {| session := {| user := Some alice; accessToken := Some "a";
                   refreshToken := Some "b"; isLoading := true;
                   isAuthenticated := false |};
     storage := Some (Persisted.make (Some "a") (Some "b") (Some alice));
     requests := []; console := [] |}.

(* ================================================================== *)
(** ** What [AuthCallbackPage] shows *)

Module AuthCallbackView.

Inductive Shown : Type :=
| ErrorCard (msg : string)     (* the card [Authentication Failed] *)
| Spinner.                     (* [Completing Sign In] *)

(** What the component returns: [if (error)] is false on [null] and on the
    empty string. *)
Definition render (page : AuthCallbackPage.State) : Shown :=
  match AuthCallbackPage.error page with
  | Some msg => if nonempty msg then ErrorCard msg else Spinner
  | None => Spinner
  end.

End AuthCallbackView.

(* ================================================================== *)
(** ** [ProtectedRoute] *)

Module ProtectedRoute.

Inductive Rendered : Type :=
| Fallback       (* the fallback, or the spinner *)
| Nothing        (* [null] *)
| Children.

(** What the component returns on the state of one render. *)
Definition render (state : AuthState) : Rendered :=
  if isLoading state then Fallback
  else if negb (isAuthenticated state) then Nothing
  else Children.

(** What the effects of the component reach outside the store: the item
    [redirectAfterLogin] of the session storage and the router. *)
Record Browser : Type := mkBrowser {
  redirectAfterLogin : option string;
  pushed : list string
}.

(** The second effect, on the values of one render (an effect runs in the
    browser, where [window] is defined). *)
Definition redirect (state : AuthState) (pathname : string) (b : Browser) : Browser :=
  if negb (isLoading state) && negb (isAuthenticated state) then
    {| redirectAfterLogin := Some pathname;
       pushed := pushed b ++ ["/auth/login"] |}
  else b.

End ProtectedRoute.

(* ================================================================== *)
(** ** [UserDropdown] *)

Module UserDropdown.

(** [await logout(); router.push('/auth/login')], over the navigations
    asked so far. *)
Definition handleLogout (remote : Remote) (pushed : list string) : M (list string) :=
  useAuthStore.logout remote ;;
  ret (pushed ++ ["/auth/login"]).

(** [email.split('@')[0]]; an index past the end of an array is
    [undefined]. *)
Definition before_at (email : string) : option string :=
  hd_error (URLSearchParams.split "@"%char email).

(** The name on the button: [user.display_name || user.email.split('@')[0]]. *)
Definition label (user : User) : option string :=
  match display_name user with
  | Some shown => if nonempty shown then Some shown else before_at (email user)
  | None => before_at (email user)
  end.

End UserDropdown.

(* ================================================================== *)
(** ** [LoginPage] *)

Module LoginPage.

Record State : Type := mkState {
  error : string;
  pushed : list string
}.

Definition setError (msg : string) (page : State) : State :=
  {| error := msg; pushed := pushed page |}.

Definition router_push (path : string) (page : State) : State :=
  {| error := error page; pushed := pushed page ++ [path] |}.

(** The handler of the form; [login] is the action of the store, which
    [useAuth] hands over as it is. *)
Definition handleSubmit (remote : Remote) (email password : string) (page : State)
  : M State :=
  let page := setError "" page in
  try_catch
    (useAuthStore.login remote email password ;;
     ret (router_push "/dashboard" page))
    (fun err => ret (setError (message err) page)).

End LoginPage.

(* ================================================================== *)
(** ** Vocabulary of the further statements *)

(** The most requests one operation sends. *)
Definition budget (op : Operation) : nat :=
  match op with
  | SetUser _ | SetTokens _ _ | Reload => 0
  | Login _ _ | Signup _ _ _ | HandleOAuthCallback _ _ => 1
  | Logout | RefreshTokens => 1
  | CheckAuth => 3
  end.

(** The token a request presents, when it presents one. *)
Definition credential (rq : Request) : option string :=
  match rq with
  | POST_logout token | GET_me token | POST_refresh token => Some token
  | POST_signup _ _ _ | POST_login _ _ => None
  end.

(** [s.includes(c)] for a separator of one character. *)
Fixpoint includes (c : ascii) (s : string) : bool :=
  match s with
  | EmptyString => false
  | String c' rest => if Ascii.eqb c' c then true else includes c rest
  end.

(** An object as a validation error is: it has no own property
    [toString]. *)
Definition plain_object (j : Json) : Prop :=
  match j with
  | JObject fields => lookup "toString" fields = None
  | _ => False
  end.

(** How every such object prints. *)
Definition object_Object : string := "[object Object]".

(* ================================================================== *)
(** ** The repository types ([lib/types/repository]) *)

Inductive Visibility : Type := Public | Private | Internal.

Module Repository.
Record t : Type := make {
  id : string;
  github_id : Number;
  name : string;
  full_name : string;
  description : option string;
  html_url : string;
  visibility : Visibility;
  default_branch : string;
  language : option string;
  stars_count : Number;
  forks_count : Number;
  open_issues_count : Number;
  is_active : bool;
  last_synced_at : option string
}.
End Repository.

Module Branch.
Record t : Type := make {
  name : string;
  protected : bool
}.
End Branch.

Module Webhook.
Record t : Type := make {
  id : string;
  github_hook_id : option Number;
  events : list string;
  is_active : bool;
  last_delivery_at : option string;
  last_delivery_status : option string
}.
End Webhook.

(** The answer of the sync endpoint. *)
Module SyncResult.
Record t : Type := make {
  message : string;
  last_synced_at : string
}.
End SyncResult.

(* ================================================================== *)
(** ** Computations of the pages *)

(** What [fetch] is given: the address and, of the second argument, the
    method (absent, it is GET), the body, kept as the value its text
    denotes, and the headers, an object in the order of its keys. *)
Record RequestInit : Type := mkRequestInit {
  method : option string;
  body : option Json;
  headers : list (string * string)
}.

Record Call : Type := mkCall {
  url : string;
  init : RequestInit
}.

(** What a handler of a page of kind [P] can read or change: the store of
    the session, the calls [fetchWithAuth] has made, the navigations asked
    of the router and the state of the component. *)
Record Env (P : Type) : Type := mkEnv {
  store : Store;
  fetched : list Call;
  navigated : list string;
  view : P
}.
Arguments mkEnv {P} store fetched navigated view.
Arguments store {P} e.
Arguments fetched {P} e.
Arguments navigated {P} e.
Arguments view {P} e.

Module Async.

Definition Prog (S A : Type) : Type := S -> Completion A * S.

Definition pure {S A : Type} (a : A) : Prog S A := fun w => (Return a, w).

Definition raise {S A : Type} (e : Error) : Prog S A := fun w => (Throw e, w).

Definition and_then {S A B : Type} (c : Prog S A) (k : A -> Prog S B) : Prog S B :=
  fun w =>
    match c w with
    | (Return a, w') => k a w'
    | (Throw e, w') => (Throw e, w')
    end.

(** [try { c } catch (err) { h err }] *)
Definition attempt {S A : Type} (c : Prog S A) (h : Error -> Prog S A) : Prog S A :=
  fun w =>
    match c w with
    | (Return a, w') => (Return a, w')
    | (Throw e, w') => h e w'
    end.

(** [try { c } finally { f }] *)
Definition ensure {S A : Type} (c : Prog S A) (f : Prog S unit) : Prog S A :=
  fun w =>
    match c w with
    | (r, w') =>
        match f w' with
        | (Return _, w'') => (r, w'')
        | (Throw e, w'') => (Throw e, w'')
        end
    end.

(** A computation on the store alone, run from a page. *)
Definition on_store {P A : Type} (c : M A) : Prog (Env P) A :=
  fun w =>
    match c (store w) with
    | (r, s') =>
        (r, {| store := s'; fetched := fetched w;
               navigated := navigated w; view := view w |})
    end.

(** A change of the state of the component, as a [setX(...)] call makes. *)
Definition update {P : Type} (f : P -> P) : Prog (Env P) unit :=
  fun w =>
    (Return tt, {| store := store w; fetched := fetched w;
                   navigated := navigated w; view := f (view w) |}).

(** The state of the component, as the handler sees it. *)
Definition current {P : Type} : Prog (Env P) P :=
  fun w => (Return (view w), w).

(** [router.push(path)] *)
Definition router_push {P : Type} (path : string) : Prog (Env P) unit :=
  fun w =>
    (Return tt, {| store := store w; fetched := fetched w;
                   navigated := navigated w ++ [path]; view := view w |}).

End Async.

Declare Scope prog_scope.
Delimit Scope prog_scope with prog.
Notation "x <- c ;; k" := (Async.and_then c (fun x => k))
  (at level 100, c at next level, right associativity) : prog_scope.
Notation "c ;; k" := (Async.and_then c (fun _ => k))
  (at level 100, right associativity) : prog_scope.

(* ================================================================== *)
(** ** [fetchWithAuth] and [repositoriesApi] ([lib/api/repositories]) *)

(** The repository endpoints, with the network in front of them: the
    answer to a call, by the number of calls made before it. *)
Record Service : Type := mkService {
  on_list : nat -> Call -> FetchResult (list Repository.t);
  on_add : nat -> Call -> FetchResult Repository.t;
  on_get : nat -> Call -> FetchResult Repository.t;
  on_update : nat -> Call -> FetchResult Json;
  on_delete : nat -> Call -> FetchResult Json;
  on_sync : nat -> Call -> FetchResult SyncResult.t;
  on_branches : nat -> Call -> FetchResult (list Branch.t);
  on_webhooks : nat -> Call -> FetchResult (list Webhook.t)
}.

Module repositories.
Section WithService.

Local Open Scope prog_scope.

(** [process.env.NEXT_PUBLIC_API_URL], and whether [window] is defined. *)
Variable NEXT_PUBLIC_API_URL : option string.
Variable window : bool.
Variable service : Service.

Definition API_BASE_URL : string :=
  or_string NEXT_PUBLIC_API_URL "http://localhost:8000".

(** [JSON.parse(localStorage.getItem('echo-auth-storage') || '{}')]: the
    entry is the text [persist] wrote, or there is none. *)
Definition parsed_entry (s : Store) : Json :=
  match storage s with
  | Some p => JSONStorage.write p
  | None => JObject []
  end.

(** [v?.key], for the keys [state] and [accessToken], which no primitive
    and no array has. *)
Definition chain (v : option Json) (key : string) : option Json :=
  match v with
  | Some (JObject fields) => lookup key fields
  | _ => None
  end.

(** Truthiness of a value read from parsed JSON ([None] is [undefined]). *)
Definition truthy_value (v : option Json) : bool :=
  match v with
  | None | Some JNull | Some (JBool false) => false
  | Some (JNumber n) => negb (number_is_zero n)
  | Some (JString s) => nonempty s
  | Some _ => true
  end.

(** [{...target, ...source}] on objects of strings: a key that is there
    keeps its place and takes the new value, a new key goes last. *)
Fixpoint put (key value : string) (target : list (string * string))
  : list (string * string) :=
  match target with
  | [] => [(key, value)]
  | (k, v) :: rest =>
      if String.eqb k key then (k, value) :: rest else (k, v) :: put key value rest
  end.

Definition spread (target source : list (string * string)) : list (string * string) :=
  fold_left (fun acc kv => put (fst kv) (snd kv) acc) source target.

(** [await fetch(url, init)] *)
Definition fetch_call {P A : Type} (answer : nat -> Call -> FetchResult A)
    (call : Call) : Async.Prog (Env P) (HttpResponse A) :=
  fun w =>
    let w' := {| store := store w; fetched := fetched w ++ [call];
                 navigated := navigated w; view := view w |} in
    match answer (length (fetched w)) call with
    | Rejected e => (Throw e, w')
    | Responded r => (Return r, w')
    end.

Definition fetchWithAuth {P A : Type} (answer : nat -> Call -> FetchResult A)
    (url : string) (options : RequestInit) : Async.Prog (Env P) A :=
  fun w =>
    let token :=
      if window then chain (chain (Some (parsed_entry (store w))) "state") "accessToken"
      else Some JNull in
    (authorization <-
       (if truthy_value token then
          match token with
          | Some t =>
              match ToString t with
              | Some text => Async.pure [("Authorization", ("Bearer " ++ text)%string)]
              | None =>
                  Async.raise
                    (mkError "TypeError" "Cannot convert object to primitive value")
              end
          | None => Async.pure []
          end
        else Async.pure []) ;;
     response <-
       fetch_call answer
         {| url := url;
            init := {| method := method options;
                       body := body options;
                       headers :=
                         spread (spread [("Content-Type", "application/json")]
                                        authorization)
                                (headers options) |} |} ;;
     match response with
     | NotOk payload =>
         error <-
           (match payload with
            | Malformed _ => Async.pure (JObject [("detail", JString "Request failed")])
            | Body parsed => Async.pure parsed
            end) ;;
         d <- Async.on_store (detail error) ;;
         e <- Async.on_store (new_Error (or_else d "Request failed")) ;;
         Async.raise e
     | Ok payload =>
         match payload with
         | Malformed e => Async.raise e
         | Body a => Async.pure a
         end
     end) w.

(** The default value of [options]. *)
Definition no_options : RequestInit :=
  {| method := None; body := None; headers := [] |}.

Definition list (includeInactive : bool) {P : Type}
  : Async.Prog (Env P) (list Repository.t) :=
  fetchWithAuth (on_list service)
    (API_BASE_URL ++ "/api/repositories?include_inactive="
       ++ (if includeInactive then "true" else "false"))%string
    no_options.

Definition add (fullName : string) {P : Type} : Async.Prog (Env P) Repository.t :=
  fetchWithAuth (on_add service)
    (API_BASE_URL ++ "/api/repositories")%string
    {| method := Some "POST";
       body := Some (JObject [("full_name", JString fullName)]);
       headers := [] |}.

Definition get (id : string) {P : Type} : Async.Prog (Env P) Repository.t :=
  fetchWithAuth (on_get service)
    (API_BASE_URL ++ "/api/repositories/" ++ id)%string
    no_options.

(** [settings] is the object as it is at run time, its keys in order. *)
Definition update (id : string) (settings : Datatypes.list (string * Json)) {P : Type}
  : Async.Prog (Env P) Json :=
  fetchWithAuth (on_update service)
    (API_BASE_URL ++ "/api/repositories/" ++ id)%string
    {| method := Some "PUT"; body := Some (JObject settings); headers := [] |}.

Definition delete (id : string) {P : Type} : Async.Prog (Env P) Json :=
  fetchWithAuth (on_delete service)
    (API_BASE_URL ++ "/api/repositories/" ++ id)%string
    {| method := Some "DELETE"; body := None; headers := [] |}.

Definition sync (id : string) {P : Type} : Async.Prog (Env P) SyncResult.t :=
  fetchWithAuth (on_sync service)
    (API_BASE_URL ++ "/api/repositories/" ++ id ++ "/sync")%string
    {| method := Some "POST"; body := None; headers := [] |}.

Definition getBranches (id : string) {P : Type}
  : Async.Prog (Env P) (Datatypes.list Branch.t) :=
  fetchWithAuth (on_branches service)
    (API_BASE_URL ++ "/api/repositories/" ++ id ++ "/branches")%string
    no_options.

Definition getWebhooks (id : string) {P : Type}
  : Async.Prog (Env P) (Datatypes.list Webhook.t) :=
  fetchWithAuth (on_webhooks service)
    (API_BASE_URL ++ "/api/repositories/" ++ id ++ "/webhooks")%string
    no_options.

End WithService.
End repositories.

(* ================================================================== *)
(** ** [AddRepositoryContent] *)

Module AddRepositoryContent.

Record State : Type := mkState {
  fullName : string;
  loading : bool;
  error : string
}.

Definition setLoading (b : bool) (page : State) : State :=
  {| fullName := fullName page; loading := b; error := error page |}.

Definition setError (msg : string) (page : State) : State :=
  {| fullName := fullName page; loading := loading page; error := msg |}.

Section WithService.

Local Open Scope prog_scope.

Variable NEXT_PUBLIC_API_URL : option string.
Variable service : Service.

(** The handler of the form, in the browser. *)
Definition handleSubmit : Async.Prog (Env State) unit :=
  Async.update (setError "") ;;
  page <- Async.current ;;
  if negb (includes "/"%char (fullName page)) then
    Async.update (setError "Please enter repository in owner/repo format")
  else
    Async.update (setLoading true) ;;
    Async.ensure
      (Async.attempt
         (repo <- repositories.add NEXT_PUBLIC_API_URL true service (fullName page) ;;
          Async.router_push ("/repositories/" ++ Repository.id repo)%string)
         (fun err => Async.update (setError (message err))))
      (Async.update (setLoading false)).

End WithService.
End AddRepositoryContent.

(* ================================================================== *)
(** ** [RepositoriesContent] *)

Module RepositoriesContent.

Record State : Type := mkState {
  repos : list Repository.t;
  loading : bool;
  error : string
}.

(** The state at the first render. *)
Definition mounted : State := {| repos := []; loading := true; error := "" |}.

Definition setRepos (data : list Repository.t) (page : State) : State :=
  {| repos := data; loading := loading page; error := error page |}.

Definition setLoading (b : bool) (page : State) : State :=
  {| repos := repos page; loading := b; error := error page |}.

Definition setError (msg : string) (page : State) : State :=
  {| repos := repos page; loading := loading page; error := msg |}.

Section WithService.

Local Open Scope prog_scope.

Variable NEXT_PUBLIC_API_URL : option string.
Variable service : Service.

Definition loadRepositories : Async.Prog (Env State) unit :=
  Async.ensure
    (Async.attempt
       (data <- repositories.list NEXT_PUBLIC_API_URL true service false ;;
        Async.update (setRepos data))
       (fun err => Async.update (setError (message err))))
    (Async.update (setLoading false)).

Definition handleSync (id : string) : Async.Prog (Env State) unit :=
  Async.attempt
    (_ <- repositories.sync NEXT_PUBLIC_API_URL true service id ;;
     loadRepositories)
    (fun err => Async.on_store (console_error "Sync failed:" err)).

End WithService.
End RepositoriesContent.

(* ================================================================== *)
(** ** Vocabulary of the statements on the repository client *)

(** The [Authorization] header a session gives rise to. *)
Definition authorization_of (a : AuthState) : list (string * string) :=
  match accessToken a with
  | Some token =>
      if nonempty token then [("Authorization", ("Bearer " ++ token)%string)] else []
  | None => []
  end.

(** The headers [fetchWithAuth] sends, by what the storage holds and the
    headers it was given. *)
Definition sent_headers (window : bool) (s : Store) (given : list (string * string))
  : list (string * string) :=
  repositories.spread
    (repositories.spread
       [("Content-Type", "application/json")]
       (if window then
          match storage s with
          | Some p =>
              match Persisted.accessToken p with
              | Some token =>
                  if nonempty token
                  then [("Authorization", ("Bearer " ++ token)%string)]
                  else []
              | None => []
              end
          | None => []
          end
        else []))
    given.

(** How [fetchWithAuth] settles on an answer: as [authApi] does, but that
    an error payload that does not parse counts as
    [{detail: 'Request failed'}]. *)
Definition settle_request {A : Type} (r : FetchResult A) : Completion A :=
  match r with
  | Rejected e => Throw e
  | Responded (NotOk (Malformed _)) => Throw (mkError "Error" "Request failed")
  | Responded (NotOk (Body error)) => Throw (refusal error "Request failed")
  | Responded (Ok (Malformed e)) => Throw e
  | Responded (Ok (Body a)) => Return a
  end.

(** The env once one more call has been made. *)
Definition called {P : Type} (call : Call) (w : Env P) : Env P :=
  {| store := store w; fetched := fetched w ++ [call];
     navigated := navigated w; view := view w |}.

(** A repository service that accepts every call. *)
Definition echo_repository : Repository.t :=
  Repository.make "r1" (mkNumber "1" false) "echo" "octo/echo" None
    "https://github.com/octo/echo" Public "main" None
    (mkNumber "0" true) (mkNumber "0" true) (mkNumber "0" true) true None.

Definition accepting : Service :=
  {| on_list := fun _ _ => Responded (Ok (Body [echo_repository]));
     on_add := fun _ _ => Responded (Ok (Body echo_repository));
     on_get := fun _ _ => Responded (Ok (Body echo_repository));
     on_update := fun _ _ => Responded (Ok (Body (JObject [])));
     on_delete := fun _ _ => Responded (Ok (Body (JObject [])));
     on_sync := fun _ _ =>
       Responded (Ok (Body (SyncResult.make "synced" "2024-02-08T00:00:00Z")));
     on_branches := fun _ _ => Responded (Ok (Body [Branch.make "main" true]));
     on_webhooks := fun _ _ => Responded (Ok (Body [])) |}.

(** A gateway in front of the service answers every call with a page
    that is not JSON. *)
Definition bad_gateway : Service :=
  let html := mkError "SyntaxError" "Unexpected token '<'" in
  {| on_list := fun _ _ => Responded (NotOk (Malformed html));
     on_add := fun _ _ => Responded (NotOk (Malformed html));
     on_get := fun _ _ => Responded (NotOk (Malformed html));
     on_update := fun _ _ => Responded (NotOk (Malformed html));
     on_delete := fun _ _ => Responded (NotOk (Malformed html));
     on_sync := fun _ _ => Responded (NotOk (Malformed html));
     on_branches := fun _ _ => Responded (NotOk (Malformed html));
     on_webhooks := fun _ _ => Responded (NotOk (Malformed html)) |}.

(** The first call is refused, the later ones accepted. *)
Definition recovering : Service :=
  let refused := Responded (NotOk (Body (JObject [("detail", JString "Rate limited")]))) in
  {| on_list := fun moment call =>
       if Nat.eqb moment 0 then refused else on_list accepting moment call;
     on_add := on_add accepting;
     on_get := on_get accepting;
     on_update := on_update accepting;
     on_delete := on_delete accepting;
     on_sync := on_sync accepting;
     on_branches := on_branches accepting;
     on_webhooks := on_webhooks accepting |}.

(** A page opened on a store. *)
Definition opened {P : Type} (s : Store) (page : P) : Env P :=
  {| store := s; fetched := []; navigated := []; view := page |}.

(* ================================================================== *)
(** ** Proof steps *)

(** Opens an action of the store down to the calls of [authApi]. *)
Ltac step_store :=
  cbv [useAuthStore.setUser useAuthStore.setTokens useAuthStore.login
       useAuthStore.signup useAuthStore.logout useAuthStore.refreshTokens
       useAuthStore.checkAuth useAuthStore.handleOAuthCallback useAuthStore.reload
       useAuthStore.get useAuthStore.set
       bind ret throw try_catch try_finally console_error].

(** Reads the fields of the stores that were built on the way. *)
Ltac tidy :=
  unfold now, sent in *;
  cbn [session storage requests console fold_left assign negb
       user accessToken refreshToken isLoading isAuthenticated fst snd] in *.

(* ================================================================== *)
(** ** How the client settles *)

Lemma reject_with_refusal (A : Type) (error : Json) (fallback : string) (s : Store) :
  @reject_with A (Body error) fallback s = (Throw (refusal error fallback), s).
Proof.
  unfold reject_with, refusal, json, detail, new_Error, bind, ret, throw.
  destruct error; try reflexivity; cbn;
    match goal with |- context [ToString ?v] => destruct (ToString v) end;
    reflexivity.
Qed.

Lemma respond_settles (A : Type) (fallback : string) (r : HttpResponse A) (s : Store) :
  match r with
  | NotOk body => reject_with body fallback
  | Ok body => json body
  end s = (settle fallback (Responded r), s).
Proof.
  destruct r as [[e | error] | [e | a]]; try reflexivity.
  apply reject_with_refusal.
Qed.

Lemma fetch_then_settle (A : Type) (fallback : string) (rq : Request)
    (answer : nat -> FetchResult A) (s : Store) :
  bind (fetch rq answer)
       (fun response =>
          match response with
          | NotOk body => reject_with body fallback
          | Ok body => json body
          end) s
  = (settle fallback (answer (now s)), sent rq s).
Proof.
  unfold bind, fetch, now.
  destruct (answer (length (requests s))) as [e | r]; [reflexivity |].
  apply respond_settles.
Qed.

Lemma getMe_settles remote token s :
  authApi.getMe remote token s
  = (settle "Failed to fetch user" (on_me remote (now s) token), sent (GET_me token) s).
Proof. apply fetch_then_settle. Qed.

Lemma login_settles remote e p s :
  authApi.login remote e p s
  = (settle "Login failed" (on_login remote (now s) e p), sent (POST_login e p) s).
Proof. apply fetch_then_settle. Qed.

Lemma signup_settles remote e p d s :
  authApi.signup remote e p d s
  = (settle "Signup failed" (on_signup remote (now s) e p d), sent (POST_signup e p d) s).
Proof. apply fetch_then_settle. Qed.

Lemma logout_settles remote token s :
  authApi.logout remote token s
  = (settle "Logout failed" (on_logout remote (now s) token), sent (POST_logout token) s).
Proof. apply fetch_then_settle. Qed.

Lemma refreshToken_settles remote token s :
  authApi.refreshToken remote token s
  = (settle "Token refresh failed" (on_refresh remote (now s) token),
     sent (POST_refresh token) s).
Proof. apply fetch_then_settle. Qed.

Lemma settle_fails (A : Type) (fallback : string) (r : FetchResult A) :
  fails r = true -> exists e, settle fallback r = Throw e.
Proof.
  destruct r as [e | [[e | error] | [e | a]]]; simpl; intros H;
    try discriminate; eauto.
Qed.


Lemma settle_returns (A : Type) (fallback : string) (r : FetchResult A) (a : A) :
  settle fallback r = Return a -> r = Responded (Ok (Body a)).
Proof.
  destruct r as [e | [[e | error] | [e | a']]]; cbn [settle]; intros H;
    now inversion H.
Qed.

Lemma settle_surfaced (A : Type) (fallback : string) (r : FetchResult A) (e : Error) :
  settle fallback r = Throw e -> surfaced fallback r e.
Proof.
  destruct r as [e0 | [[e0 | error] | [e0 | a]]]; cbn [settle surfaced];
    intros H; try (now inversion H).
  destruct error; trivial.
  unfold refusal in H.
  destruct (lookup "detail" fields) as [[| b | n | m | items | inner] |];
    cbn [or_else] in H; trivial.
  - destruct (nonempty m); cbn [ToString] in H; now inversion H.
  - cbn [ToString] in H. now inversion H.
Qed.

Ltac settle_calls :=
  first [ rewrite getMe_settles | rewrite login_settles | rewrite signup_settles
        | rewrite logout_settles | rewrite refreshToken_settles ].

(** Runs an action through every answer the remote can give: the innermost
    test that is stuck is split first. *)
Ltac explore :=
  step_store;
  repeat (tidy;
          first [ settle_calls
                | match goal with
                  | |- context [match ?x with _ => _ end] =>
                      lazymatch x with
                      | context [match _ with _ => _ end] => fail
                      | _ => destruct x eqn:?
                      end
                  end ]).

(* ================================================================== *)
(** ** Runs of the model *)

Example run_login_logout :
  let s := after_all serving [Login "e@x.com" "secret"; Logout] fresh in
  session s = signed_out
  /\ requests s = [POST_login "e@x.com" "secret"; POST_logout "a"]
  /\ storage s = Some (Persisted.make None None None).
Proof. repeat split. Qed.

Example run_login_reload_checkAuth :
  let s := after_all serving [Login "e@x.com" "secret"; Reload] fresh in
  session s = session restored
  /\ session (after serving CheckAuth s)
     = {| user := Some alice; accessToken := Some "a"; refreshToken := Some "b";
          isLoading := false; isAuthenticated := true |}.
Proof. repeat split. Qed.

Example run_refused_login :
  fst (useAuthStore.login refusing "e@x.com" "secret" fresh)
  = Throw (mkError "Error" "Invalid login credentials").
Proof. reflexivity. Qed.

Example run_error_payloads :
  refusal (JObject []) "Login failed" = mkError "Error" "Login failed"
  /\ refusal (JObject [("detail", JString "")]) "Login failed"
     = mkError "Error" "Login failed"
  /\ refusal (JString "Bad Gateway") "Login failed" = mkError "Error" "Login failed"
  /\ refusal (JObject [("detail", JArray [JObject [("msg", JString "field required")]])])
       "Login failed"
     = mkError "Error" "[object Object]"
  /\ name (refusal JNull "Login failed") = "TypeError".
Proof. repeat split. Qed.

Example run_parse :
  URLSearchParams.parse "error=access_denied&error_description=User+denied"
  = [("error", "access_denied"); ("error_description", "User denied")]
  /\ URLSearchParams.parse "access_token=T%31&&refresh_token=T2&flag"
     = [("access_token", "T1"); ("refresh_token", "T2"); ("flag", "")].
Proof. split; reflexivity. Qed.

Example run_callback :
  (let (done, s) := AuthCallbackPage.run serving
                      (URLSearchParams.parse "access_token=T1&refresh_token=T2") fresh in
   done = Return {| AuthCallbackPage.error := None;
                    AuthCallbackPage.pushed := ["/dashboard"] |}
   /\ session s = {| user := Some alice; accessToken := Some "T1";
                     refreshToken := Some "T2"; isLoading := false;
                     isAuthenticated := true |})
  /\ (let (done, s) := AuthCallbackPage.run credentials_only
                         (URLSearchParams.parse "access_token=T1&refresh_token=T2")
                         fresh in
      done = Return {| AuthCallbackPage.error := Some "Token expired";
                       AuthCallbackPage.pushed := [] |}
      /\ accessToken (session s) = Some "T1"
      /\ isAuthenticated (session s) = false).
Proof. repeat split. Qed.

(* ================================================================== *)
(** ** [refreshTokens] *)

(** C4.  In every store whose [refreshToken] is null, [refreshTokens]
    returns false and leaves the whole store as it was: no field of the
    session changes and no request is sent. *)
Theorem refreshTokens_without_token remote s :
  refreshToken (session s) = None ->
  useAuthStore.refreshTokens remote s = (Return false, s).
Proof.
  intros H. step_store. now rewrite H.
Qed.

Lemma refreshTokens_without_token_witness :
  useAuthStore.refreshTokens expiring fresh = (Return false, fresh).
Proof.
  apply (refreshTokens_without_token expiring fresh). reflexivity.
Defined.

(** C10.  [refreshTokens] leaves [isLoading] at its prior value on every
    path.  When the remote refresh fails, the user, both tokens and
    [isAuthenticated] are cleared and [isLoading] is still what it was; a
    caller outside [checkAuth] can so observe a cleared session that is
    still loading. *)
Theorem refreshTokens_leaves_isLoading :
  (forall remote s,
     isLoading (session (snd (useAuthStore.refreshTokens remote s)))
     = isLoading (session s))
  /\ (forall remote s token,
        refreshToken (session s) = Some token ->
        nonempty token = true ->
        fails (on_refresh remote (now s) token) = true ->
        exists s',
          useAuthStore.refreshTokens remote s = (Return false, s')
          /\ user (session s') = None
          /\ accessToken (session s') = None
          /\ refreshToken (session s') = None
          /\ isAuthenticated (session s') = false
          /\ isLoading (session s') = isLoading (session s))
  /\ (exists s',
        useAuthStore.refreshTokens offline restored = (Return false, s')
        /\ session s' = {| user := None; accessToken := None; refreshToken := None;
                           isLoading := true; isAuthenticated := false |}).
Proof.
  split; [| split].
  - intros remote s. step_store.
    destruct (refreshToken (session s)) as [token |]; [| reflexivity].
    destruct (nonempty token); [| reflexivity].
    cbn [negb]. rewrite refreshToken_settles.
    destruct (settle _ _); reflexivity.
  - intros remote s token Htoken Hne Hfail.
    destruct (settle_fails "Token refresh failed" _ Hfail) as [e He].
    step_store. rewrite Htoken, Hne. cbn [negb].
    rewrite refreshToken_settles, He.
    eexists. repeat split; reflexivity.
  - eexists. split; reflexivity.
Qed.

Lemma refreshTokens_leaves_isLoading_witness :
  exists s',
    useAuthStore.refreshTokens credentials_only restored = (Return false, s')
    /\ user (session s') = None
    /\ accessToken (session s') = None
    /\ refreshToken (session s') = None
    /\ isAuthenticated (session s') = false
    /\ isLoading (session s') = isLoading (session restored).
Proof.
  apply (proj1 (proj2 refreshTokens_leaves_isLoading) credentials_only restored "b");
    reflexivity.
Defined.

(* ================================================================== *)
(** ** [logout] *)

(** C3.  From every store, [logout] returns (it never throws) with the
    user and both tokens null, [isAuthenticated] and [isLoading] false,
    whatever the remote answers; the remote logout is requested only when
    an access token is held, and then once. *)
Theorem logout_always_signs_out remote s :
  exists s',
    useAuthStore.logout remote s = (Return tt, s')
    /\ session s' = signed_out
    /\ requests s' =
         requests s ++
         match accessToken (session s) with
         | Some token => if nonempty token then [POST_logout token] else []
         | None => []
         end.
Proof.
  step_store.
  destruct (accessToken (session s)) as [token |]; tidy.
  - destruct (nonempty token); tidy.
    + rewrite logout_settles.
      destruct (settle _ _); tidy; eexists; repeat split; reflexivity.
    + eexists; repeat split; tidy. now rewrite app_nil_r.
  - eexists; repeat split; tidy. now rewrite app_nil_r.
Qed.

(* ================================================================== *)
(** ** [login] and [signup] *)

(** C2, as amended.  When the remote login or signup call fails, the
    action rejects with the very error [authApi] threw, and the session is
    as before the call, [isLoading] apart, which is false.  That error
    carries the [detail] of the service's error payload when it is a
    string that is not empty, and the fallback of the operation when the
    payload is an object without [detail] or with an empty one; when no
    response arrived, or the body is not JSON, it is the error of the
    transport or of the parser, not the fallback. *)
Theorem login_signup_failure remote s email password displayName :
  (fails (on_login remote (now s) email password) = true ->
   exists e s',
     useAuthStore.login remote email password s = (Throw e, s')
     /\ untouched (session s) (session s')
     /\ settle "Login failed" (on_login remote (now s) email password) = Throw e
     /\ surfaced "Login failed" (on_login remote (now s) email password) e)
  /\ (fails (on_signup remote (now s) email password displayName) = true ->
      exists e s',
        useAuthStore.signup remote email password displayName s = (Throw e, s')
        /\ untouched (session s) (session s')
        /\ settle "Signup failed"
             (on_signup remote (now s) email password displayName) = Throw e
        /\ surfaced "Signup failed"
             (on_signup remote (now s) email password displayName) e).
Proof.
  split; intros Hfail.
  - destruct (settle_fails "Login failed" _ Hfail) as [e He].
    exists e. step_store. rewrite login_settles. tidy. rewrite He.
    eexists. split; [reflexivity |]. split; [now repeat split |].
    split; [reflexivity | now apply settle_surfaced].
  - destruct (settle_fails "Signup failed" _ Hfail) as [e He].
    exists e. step_store. rewrite signup_settles. tidy. rewrite He.
    eexists. split; [reflexivity |]. split; [now repeat split |].
    split; [reflexivity | now apply settle_surfaced].
Qed.

Lemma login_signup_failure_witness :
  exists e s',
    useAuthStore.login refusing "e@x.com" "secret" restored = (Throw e, s')
    /\ untouched (session restored) (session s')
    /\ settle "Login failed" (on_login refusing (now restored) "e@x.com" "secret")
       = Throw e
    /\ surfaced "Login failed" (on_login refusing (now restored) "e@x.com" "secret") e.
Proof.
  apply (proj1 (login_signup_failure refusing restored "e@x.com" "secret" None)).
  reflexivity.
Defined.

(** When no response arrives, the message surfaced is the one of the
    transport: the service gave none, and it is not the fallback. *)
Lemma login_failure_offline :
  ~ login_failure_as_specified offline restored "e@x.com" "secret".
Proof.
  intros H. destruct (H eq_refl) as (e & s' & Hrun & _ & Hmessage).
  cbv in Hrun. inversion Hrun; subst e. discriminate Hmessage.
Qed.

(* ================================================================== *)
(** ** [handleOAuthCallback] *)

(** C7.  When the fetch of the current user fails, [handleOAuthCallback T1
    T2] throws the error of that fetch and leaves [accessToken] at T1 and
    [refreshToken] at T2, with [isAuthenticated] and [isLoading] false. *)
Theorem handleOAuthCallback_failure_keeps_tokens remote s T1 T2 :
  fails (on_me remote (now s) T1) = true ->
  exists e s',
    useAuthStore.handleOAuthCallback remote T1 T2 s = (Throw e, s')
    /\ settle "Failed to fetch user" (on_me remote (now s) T1) = Throw e
    /\ accessToken (session s') = Some T1
    /\ refreshToken (session s') = Some T2
    /\ isAuthenticated (session s') = false
    /\ isLoading (session s') = false
    /\ user (session s') = user (session s)
    /\ requests s' = requests s ++ [GET_me T1].
Proof.
  intros H. destruct (settle_fails "Failed to fetch user" _ H) as [e He].
  step_store. rewrite getMe_settles. tidy. rewrite He.
  exists e. eexists. repeat split; reflexivity.
Qed.

Lemma handleOAuthCallback_failure_keeps_tokens_witness :
  exists e s',
    useAuthStore.handleOAuthCallback credentials_only "T1" "T2" fresh = (Throw e, s')
    /\ settle "Failed to fetch user" (on_me credentials_only (now fresh) "T1") = Throw e
    /\ accessToken (session s') = Some "T1"
    /\ refreshToken (session s') = Some "T2"
    /\ isAuthenticated (session s') = false
    /\ isLoading (session s') = false
    /\ user (session s') = user (session fresh)
    /\ requests s' = requests fresh ++ [GET_me "T1"].
Proof.
  apply (handleOAuthCallback_failure_keeps_tokens credentials_only fresh "T1" "T2").
  reflexivity.
Defined.

(* ================================================================== *)
(** ** [checkAuth] *)

Lemma sent_once (l : list Request) (a : Request) : length (l ++ [a]) = length l + 1.
Proof. now rewrite length_app. Qed.

Lemma sent_twice (l : list Request) (a b : Request) :
  length ((l ++ [a]) ++ [b]) = length l + 2.
Proof. rewrite !length_app. cbn [length]. lia. Qed.

(** C1.  In a store that holds an access token whose fetch of the current
    user fails: with a refresh token the service renews, and a retried
    fetch that succeeds, [checkAuth] ends with the user fetched, the tokens
    of the refresh response, [isAuthenticated] true and [isLoading] false,
    having fetched the user once more and only once; with no refresh
    token, with one the service does not renew, or with a retried fetch
    that fails, it ends with the session fully cleared and [isLoading]
    false. *)
Theorem checkAuth_expired_access_token remote s token :
  accessToken (session s) = Some token ->
  nonempty token = true ->
  fails (on_me remote (now s) token) = true ->
  (* a valid refresh token: the session is completed after one retry *)
  (forall rtoken renewed access u,
     refreshToken (session s) = Some rtoken ->
     nonempty rtoken = true ->
     on_refresh remote (now s + 1) rtoken = Responded (Ok (Body renewed)) ->
     RefreshResponse.access_token renewed = Some access ->
     nonempty access = true ->
     on_me remote (now s + 2) access = Responded (Ok (Body (Some u))) ->
     exists s',
       useAuthStore.checkAuth remote s = (Return tt, s')
       /\ session s' =
            {| user := Some u;
               accessToken := Some access;
               refreshToken := RefreshResponse.refresh_token renewed;
               isLoading := false;
               isAuthenticated := true |}
       /\ requests s' =
            requests s ++ [GET_me token; POST_refresh rtoken; GET_me access])
  (* no refresh token *)
  /\ (truthy (refreshToken (session s)) = false ->
      exists s',
        useAuthStore.checkAuth remote s = (Return tt, s')
        /\ session s' = signed_out
        /\ requests s' = requests s ++ [GET_me token])
  (* a refresh token the service does not renew *)
  /\ (forall rtoken,
        refreshToken (session s) = Some rtoken ->
        nonempty rtoken = true ->
        fails (on_refresh remote (now s + 1) rtoken) = true ->
        exists s',
          useAuthStore.checkAuth remote s = (Return tt, s')
          /\ session s' = signed_out
          /\ requests s' = requests s ++ [GET_me token; POST_refresh rtoken])
  (* the retried fetch fails *)
  /\ (forall rtoken renewed access,
        refreshToken (session s) = Some rtoken ->
        nonempty rtoken = true ->
        on_refresh remote (now s + 1) rtoken = Responded (Ok (Body renewed)) ->
        RefreshResponse.access_token renewed = Some access ->
        nonempty access = true ->
        fails (on_me remote (now s + 2) access) = true ->
        exists s',
          useAuthStore.checkAuth remote s = (Return tt, s')
          /\ session s' = signed_out
          /\ requests s' =
               requests s ++ [GET_me token; POST_refresh rtoken; GET_me access]).
Proof.
  intros Htoken Hne Hexpired.
  destruct (settle_fails "Failed to fetch user" _ Hexpired) as [e He].
  repeat split.
  - intros rtoken renewed access u Hr Hrne Hrenew Haccess Hane Hme.
    step_store. rewrite Htoken, Hne. tidy.
    rewrite getMe_settles. tidy. rewrite He. tidy. rewrite Hr. tidy.
    rewrite Hrne. tidy.
    rewrite refreshToken_settles. tidy. rewrite sent_once, Hrenew.
    cbn [settle]. tidy. rewrite Haccess, Hane. tidy.
    rewrite getMe_settles. tidy. rewrite sent_twice, Hme. cbn [settle].
    rewrite ?Haccess.
    eexists. repeat split. tidy. now rewrite <- !app_assoc.
  - intros Hnone.
    step_store. rewrite Htoken, Hne. tidy.
    rewrite getMe_settles. tidy. rewrite He. tidy.
    destruct (refreshToken (session s)) as [rtoken |]; cbn [truthy] in Hnone; tidy.
    + rewrite Hnone. tidy. eexists. repeat split.
    + eexists. repeat split.
  - intros rtoken Hr Hrne Hrefused.
    destruct (settle_fails "Token refresh failed" _ Hrefused) as [e' He'].
    step_store. rewrite Htoken, Hne. tidy.
    rewrite getMe_settles. tidy. rewrite He. tidy. rewrite Hr. tidy.
    rewrite Hrne. tidy.
    rewrite refreshToken_settles. tidy. rewrite sent_once, He'.
    eexists. repeat split. tidy. now rewrite <- !app_assoc.
  - intros rtoken renewed access Hr Hrne Hrenew Haccess Hane Hme.
    destruct (settle_fails "Failed to fetch user" _ Hme) as [e' He'].
    step_store. rewrite Htoken, Hne. tidy.
    rewrite getMe_settles. tidy. rewrite He. tidy. rewrite Hr. tidy.
    rewrite Hrne. tidy.
    rewrite refreshToken_settles. tidy. rewrite sent_once, Hrenew.
    cbn [settle]. tidy. rewrite Haccess, Hane. tidy.
    rewrite getMe_settles. tidy. rewrite sent_twice, He'.
    eexists. repeat split. tidy. now rewrite <- !app_assoc.
Qed.

Lemma checkAuth_expired_access_token_witness :
  exists s',
    useAuthStore.checkAuth expiring restored = (Return tt, s')
    /\ session s' =
         {| user := Some alice; accessToken := Some "a2"; refreshToken := Some "b2";
            isLoading := false; isAuthenticated := true |}
    /\ requests s' = [GET_me "a"; POST_refresh "b"; GET_me "a2"].
Proof.
  apply (proj1 (checkAuth_expired_access_token expiring restored (token := "a")
                 eq_refl eq_refl eq_refl)
           "b" (RefreshResponse.make (Some "a2") (Some "b2")) "a2" alice);
    reflexivity.
Defined.

(** A refresh response whose access token is absent, null or the empty
    string is not retried with: [if (newToken)] fails and the session is
    cleared. *)
Remark checkAuth_renewed_token_empty remote s token rtoken renewed :
  accessToken (session s) = Some token ->
  nonempty token = true ->
  fails (on_me remote (now s) token) = true ->
  refreshToken (session s) = Some rtoken ->
  nonempty rtoken = true ->
  on_refresh remote (now s + 1) rtoken = Responded (Ok (Body renewed)) ->
  truthy (RefreshResponse.access_token renewed) = false ->
  exists s',
    useAuthStore.checkAuth remote s = (Return tt, s')
    /\ session s' = signed_out
    /\ requests s' = requests s ++ [GET_me token; POST_refresh rtoken].
Proof.
  intros Htoken Hne Hexpired Hr Hrne Hrenew Hempty.
  destruct (settle_fails "Failed to fetch user" _ Hexpired) as [e He].
  step_store. rewrite Htoken, Hne. tidy.
  rewrite getMe_settles. tidy. rewrite He. tidy. rewrite Hr. tidy.
  rewrite Hrne. tidy.
  rewrite refreshToken_settles. tidy. rewrite sent_once, Hrenew.
  cbn [settle]. tidy.
  destruct (RefreshResponse.access_token renewed) as [access |];
    cbn [truthy] in Hempty; tidy.
  - rewrite Hempty. tidy. eexists. repeat split. tidy. now rewrite <- !app_assoc.
  - eexists. repeat split. tidy. now rewrite <- !app_assoc.
Qed.

(* ================================================================== *)
(** ** Invariants of the reachable stores *)

Lemma reachable_induction (remote : Remote) (P : Store -> Prop) :
  P fresh ->
  (forall op s, P s -> P (after remote op s)) ->
  forall s, reachable remote s -> P s.
Proof.
  intros Hfresh Hstep s [ops ->].
  induction ops as [| op ops IH] using rev_ind; [exact Hfresh |].
  unfold after_all. rewrite fold_left_app. cbn [fold_left].
  apply Hstep, IH.
Qed.

(** Splits what is left of the tests on the values of the session. *)
Ltac split_tests :=
  repeat match goal with
    | H : context [match ?x with _ => _ end] |- _ => destruct x eqn:?
    end.

Lemma after_synced remote op s : synced s -> synced (after remote op s).
Proof.
  unfold synced, after, perform. intros Hsync.
  destruct op; explore.
  all: unfold useAuthStore.rehydrate, useAuthStore.partialize, useAuthStore.initial in *.
  all: split_tests; subst; cbn in *; congruence.
Qed.

Lemma reachable_synced remote s : reachable remote s -> synced s.
Proof.
  apply reachable_induction.
  - reflexivity.
  - intros op s0. apply after_synced.
Qed.

Lemma after_paired remote op s :
  renews_both remote ->
  synced s -> paired (session s) -> paired (session (after remote op s)).
Proof.
  unfold synced, paired, after, perform. intros Hrenews Hsync Hpair.
  destruct op; explore.
  all: repeat match goal with
         | H : settle _ (on_refresh _ _ _) = Return _ |- _ =>
             apply settle_returns in H; apply Hrenews in H
         end.
  all: unfold useAuthStore.rehydrate, useAuthStore.partialize, useAuthStore.initial in *.
  all: split_tests; subst; cbn in *.
  all: solve [congruence | tauto | intuition congruence].
Qed.

Lemma after_identified remote op s :
  answers_users remote ->
  (isAuthenticated (session s) = true -> user (session s) <> None) ->
  isAuthenticated (session (after remote op s)) = true ->
  user (session (after remote op s)) <> None.
Proof.
  unfold after, perform. intros Hanswers Huser.
  destruct op; explore.
  all: repeat match goal with
         | H : settle _ (on_me _ _ _) = Return _ |- _ => apply settle_returns in H
         end.
  all: unfold useAuthStore.rehydrate, useAuthStore.initial, is_some, answers_users in *.
  all: cbn in *; intros; split_tests; subst; cbn in *.
  all: try solve [congruence | tauto].
  all: intros ->;
    match goal with
    | H : on_me _ _ _ = Responded (Ok (Body None)) |- _ => now apply Hanswers in H
    end.
Qed.

Lemma reachable_identified remote s :
  answers_users remote ->
  reachable remote s ->
  isAuthenticated (session s) = true -> user (session s) <> None.
Proof.
  intros Hanswers. revert s.
  apply (@reachable_induction remote
           (fun s => isAuthenticated (session s) = true -> user (session s) <> None)).
  - discriminate.
  - intros op s. now apply after_identified.
Qed.

(** C5, as amended.  In every store reached from the start by completed
    operations (the actions of the store, and reloads of the page),
    [accessToken] is not null if and only if [refreshToken] is not null,
    provided every refresh the service granted carried both tokens or
    neither: [refreshTokens] stores the two properties of the answer as
    they come. *)
Theorem tokens_paired remote s :
  renews_both remote ->
  reachable remote s ->
  accessToken (session s) <> None <-> refreshToken (session s) <> None.
Proof.
  intros Hrenews Hreach.
  assert (Hboth : synced s /\ paired (session s)).
  { revert s Hreach.
    apply (@reachable_induction remote (fun s => synced s /\ paired (session s))).
    - split; [reflexivity |]. unfold paired. cbn. tauto.
    - intros op s [Hsync Hpair]. split.
      + now apply after_synced.
      + now apply after_paired. }
  apply Hboth.
Qed.

Lemma tokens_paired_witness :
  accessToken (session (after_all expiring [Login "e@x.com" "secret"; RefreshTokens] fresh))
    <> None
  <-> refreshToken
        (session (after_all expiring [Login "e@x.com" "secret"; RefreshTokens] fresh))
      <> None.
Proof.
  apply (tokens_paired (remote := expiring)).
  - intros moment token renewed H. cbv in H. inversion H. cbn. split; discriminate.
  - exists [Login "e@x.com" "secret"; RefreshTokens]. reflexivity.
Defined.

(** A refresh granted with an access token alone leaves the session, and
    after a reload the state rebuilt from storage, with an access token
    and no refresh token. *)
Lemma tokens_unpaired_after_refresh :
  reachable careless
    (after_all careless [Login "e@x.com" "secret"; RefreshTokens; Reload] fresh)
  /\ ~ (accessToken
          (session (after_all careless
                      [Login "e@x.com" "secret"; RefreshTokens; Reload] fresh))
        <> None
        <-> refreshToken
              (session (after_all careless
                          [Login "e@x.com" "secret"; RefreshTokens; Reload] fresh))
            <> None).
Proof.
  split.
  - exists [Login "e@x.com" "secret"; RefreshTokens; Reload]. reflexivity.
  - intros [H _]. cbv in H. apply H; [discriminate | reflexivity].
Qed.

(** C6, as amended.  In every reachable store, [isAuthenticated] is true
    only if [user] is not null, provided no fetch of the current user
    succeeded with the body [null] (the body is stored as it comes).  An
    operation that turns [isAuthenticated] from false to true is
    [checkAuth] or [handleOAuthCallback] whose last request is a
    successful fetch of the current user with the access token then held,
    the user being the body answered; or a [login] or [signup] that the
    service accepted, the user being the one of the credential response;
    or [setUser] with a user that is not null.  A reload never is: on
    every reachable store it keeps the user and both tokens, with
    [isAuthenticated] false and [isLoading] true. *)
Theorem isAuthenticated_established remote :
  (answers_users remote ->
   forall s,
     reachable remote s ->
     isAuthenticated (session s) = true -> user (session s) <> None)
  /\ (forall op s,
        isAuthenticated (session s) = false ->
        isAuthenticated (session (after remote op s)) = true ->
        established remote op s (after remote op s))
  /\ (forall s,
        reachable remote s ->
        session (after remote Reload s)
        = {| user := user (session s);
             accessToken := accessToken (session s);
             refreshToken := refreshToken (session s);
             isLoading := true;
             isAuthenticated := false |}).
Proof.
  split; [| split].
  - intros Hanswers s. now apply reachable_identified.
  - intros op s Hbefore.
    unfold established, identity_fetched, after, perform.
    destruct op; explore; intros Hafter; tidy; try congruence.
    all: repeat match goal with
           | H : settle _ _ = Return _ |- _ => apply settle_returns in H
           end.
    all: try solve [ do 2 eexists; repeat split; try reflexivity;
                     eexists; split; [reflexivity | eassumption] ].
    all: try solve [ eexists; repeat split; [eassumption | ..]; reflexivity ].
    + destruct user0; cbn in Hafter; split; congruence.
    + unfold useAuthStore.rehydrate in Hafter.
      destruct (storage s); cbn in Hafter; congruence.
  - intros s Hreach. pose proof (reachable_synced Hreach) as Hsync.
    unfold synced in Hsync. unfold after, perform, useAuthStore.reload.
    cbn [snd session]. destruct (storage s) as [stored |].
    + now subst stored.
    + now rewrite Hsync.
Qed.

Lemma isAuthenticated_established_witness :
  user (session (after_all credentials_only [Login "e@x.com" "secret"] fresh)) <> None
  /\ established credentials_only (Login "e@x.com" "secret") fresh
       (after credentials_only (Login "e@x.com" "secret") fresh).
Proof.
  split.
  - apply (proj1 (isAuthenticated_established credentials_only)).
    + intros moment token. discriminate.
    + exists [Login "e@x.com" "secret"]. reflexivity.
    + reflexivity.
  - apply (proj1 (proj2 (isAuthenticated_established credentials_only)));
      reflexivity.
Defined.

(** A login the service accepts sets [isAuthenticated] without any fetch
    of the current user; once a later callback has failed, the user of
    that login is still there while [isAuthenticated] is false; and a
    callback whose fetch is answered [null] leaves [isAuthenticated] true
    with no user. *)
Lemma isAuthenticated_without_identity_fetch :
  ~ provenance_as_specified credentials_only (Login "e@x.com" "secret") fresh
  /\ ~ derived_as_specified
        (session (after_all credentials_only
                    [Login "e@x.com" "secret"; HandleOAuthCallback "T1" "T2"] fresh))
  /\ ~ derived_as_specified
        (session (after_all careless [HandleOAuthCallback "T1" "T2"] fresh)).
Proof.
  split; [| split].
  - intros H. destruct (H eq_refl eq_refl) as (token & u & (earlier & Hlast & _) & _).
    cbv in Hlast. apply (f_equal (@rev Request)) in Hlast.
    rewrite rev_app_distr in Hlast. discriminate Hlast.
  - intros [_ H]. cbv in H. assert (false = true) by (apply H; discriminate).
    discriminate.
  - intros [H _]. cbv in H. now apply H.
Qed.

(* ================================================================== *)
(** ** The callback page *)

(** C8.  When the query gives [error] the value [access_denied] and
    [error_description] the value [User denied] (written [User+denied] in
    the address), the page ends with the error [User denied], and the
    store is as it was whatever action the page was given: the action is
    not called.  An [error] without [error_description] gives
    [Authentication failed]; no [error] and no token gives
    [Missing authentication tokens]. *)
Theorem callback_with_error_parameter :
  (forall handler params page s,
     URLSearchParams.get params "error" = Some "access_denied" ->
     URLSearchParams.get params "error_description" = Some "User denied" ->
     AuthCallbackPage.processCallback handler params page s
     = (Return (AuthCallbackPage.setError "User denied" page), s))
  /\ (forall handler page s,
        AuthCallbackPage.processCallback handler
          (URLSearchParams.parse "error=access_denied&error_description=User+denied")
          page s
        = (Return (AuthCallbackPage.setError "User denied" page), s))
  /\ (forall handler params page s,
        truthy (URLSearchParams.get params "error") = true ->
        URLSearchParams.get params "error_description" = None ->
        AuthCallbackPage.processCallback handler params page s
        = (Return (AuthCallbackPage.setError "Authentication failed" page), s))
  /\ (forall handler params page s,
        URLSearchParams.get params "error" = None ->
        URLSearchParams.get params "access_token" = None ->
        URLSearchParams.get params "refresh_token" = None ->
        AuthCallbackPage.processCallback handler params page s
        = (Return (AuthCallbackPage.setError "Missing authentication tokens" page), s)).
Proof.
  repeat split.
  - intros handler params page s Herror Hdescription.
    unfold AuthCallbackPage.processCallback.
    now rewrite Herror, Hdescription.
  - intros handler params page s Herror Hdescription.
    unfold AuthCallbackPage.processCallback.
    now rewrite Herror, Hdescription.
  - intros handler params page s Herror Haccess Hrefresh.
    unfold AuthCallbackPage.processCallback.
    now rewrite Herror, Haccess.
Qed.

Lemma callback_with_error_parameter_witness :
  AuthCallbackPage.run offline
    [("access_token", "T1"); ("error", "access_denied");
     ("error_description", "User denied"); ("refresh_token", "T2")]
    fresh
  = (Return (AuthCallbackPage.setError "User denied" AuthCallbackPage.mounted), fresh).
Proof.
  apply (proj1 callback_with_error_parameter); reflexivity.
Defined.

(* ================================================================== *)
(** ** Persistence *)

Lemma read_write (p : Persisted.t) : JSONStorage.read (JSONStorage.write p) = Some p.
Proof.
  destruct p as [[a |] [r |] [[i e [d |] [g |] [v |]] |]]; reflexivity.
Qed.

(** C9.  Every write stores the projection of the session, an object of
    exactly [accessToken], [refreshToken] and [user]; [isLoading] and
    [isAuthenticated] have no part in it.  What is written is read back
    as it was, so that the session rebuilt from storage has the same
    three fields, in particular for the tokens [a] and [b] and the user
    of id [1]; [isLoading] is then true and [isAuthenticated] false,
    whatever was stored, and [checkAuth] always ends with [isLoading]
    false. *)
Theorem persisted_projection :
  (forall partial s,
     storage (snd (useAuthStore.set partial s))
     = Some (useAuthStore.partialize (session (snd (useAuthStore.set partial s)))))
  /\ (forall state,
        exists a r u,
          JSONStorage.write (useAuthStore.partialize state)
          = JObject [("state", JObject [("accessToken", a); ("refreshToken", r);
                                        ("user", u)]);
                     ("version", JNumber (mkNumber "0" true))])
  /\ (forall state b,
        useAuthStore.partialize (assign state (isLoading_ b))
        = useAuthStore.partialize state
        /\ useAuthStore.partialize (assign state (isAuthenticated_ b))
           = useAuthStore.partialize state)
  /\ (forall p, JSONStorage.read (JSONStorage.write p) = Some p)
  /\ (forall state,
        useAuthStore.rehydrate (Some (useAuthStore.partialize state))
        = {| user := user state; accessToken := accessToken state;
             refreshToken := refreshToken state;
             isLoading := true; isAuthenticated := false |})
  /\ (let p := Persisted.make (Some "a") (Some "b") (Some alice) in
      JSONStorage.read (JSONStorage.write p) = Some p
      /\ useAuthStore.partialize (useAuthStore.rehydrate (Some p)) = p)
  /\ (forall stored,
        isLoading (useAuthStore.rehydrate stored) = true
        /\ isAuthenticated (useAuthStore.rehydrate stored) = false)
  /\ (forall remote s, isLoading (session (after remote CheckAuth s)) = false).
Proof.
  repeat split; try reflexivity.
  - intros state. do 3 eexists. reflexivity.
  - apply read_write.
  - destruct stored; reflexivity.
  - destruct stored; reflexivity.
  - intros remote s. unfold after, perform. explore; reflexivity.
Qed.

(* ================================================================== *)
(** ** The other paths of the store's actions *)

(** X1.  When the service accepts the credentials, [login] (and [signup]
    alike) returns with the user and both tokens of the response,
    [isAuthenticated] true and [isLoading] false; one request was sent and
    the entry in storage holds the same user and tokens. *)
Theorem login_signup_success remote s email password displayName response :
  (on_login remote (now s) email password = Responded (Ok (Body response)) ->
   useAuthStore.login remote email password s
   = (Return tt,
      {| session :=
           {| user := Some (AuthResponse.user response);
              accessToken := Some (AuthResponse.access_token response);
              refreshToken := Some (AuthResponse.refresh_token response);
              isLoading := false;
              isAuthenticated := true |};
         storage :=
           Some (Persisted.make (Some (AuthResponse.access_token response))
                                (Some (AuthResponse.refresh_token response))
                                (Some (AuthResponse.user response)));
         requests := requests s ++ [POST_login email password];
         console := console s |}))
  /\ (on_signup remote (now s) email password displayName
        = Responded (Ok (Body response)) ->
      useAuthStore.signup remote email password displayName s
      = (Return tt,
         {| session :=
              {| user := Some (AuthResponse.user response);
                 accessToken := Some (AuthResponse.access_token response);
                 refreshToken := Some (AuthResponse.refresh_token response);
                 isLoading := false;
                 isAuthenticated := true |};
            storage :=
              Some (Persisted.make (Some (AuthResponse.access_token response))
                                   (Some (AuthResponse.refresh_token response))
                                   (Some (AuthResponse.user response)));
            requests := requests s ++ [POST_signup email password displayName];
            console := console s |})).
Proof.
  split; intros Haccepted; step_store.
  - rewrite login_settles. tidy. now rewrite Haccepted.
  - rewrite signup_settles. tidy. now rewrite Haccepted.
Qed.

Lemma login_signup_success_witness :
  useAuthStore.login serving "e@x.com" "secret" fresh
  = (Return tt,
     {| session :=
          {| user := Some alice; accessToken := Some "a"; refreshToken := Some "b";
             isLoading := false; isAuthenticated := true |};
        storage := Some (Persisted.make (Some "a") (Some "b") (Some alice));
        requests := [POST_login "e@x.com" "secret"];
        console := [] |}).
Proof.
  apply (proj1 (login_signup_success serving fresh "e@x.com" "secret" None
                  (AuthResponse.make alice "a" "b" "bearer"))).
  reflexivity.
Defined.

(** X2.  When a refresh token is held and the service renews it,
    [refreshTokens] returns true with both tokens replaced by those of the
    response; the user, [isAuthenticated] and [isLoading] are as before and
    one request was sent. *)
Theorem refreshTokens_success remote s token renewed :
  refreshToken (session s) = Some token ->
  nonempty token = true ->
  on_refresh remote (now s) token = Responded (Ok (Body renewed)) ->
  exists s',
    useAuthStore.refreshTokens remote s = (Return true, s')
    /\ session s' =
         {| user := user (session s);
            accessToken := RefreshResponse.access_token renewed;
            refreshToken := RefreshResponse.refresh_token renewed;
            isLoading := isLoading (session s);
            isAuthenticated := isAuthenticated (session s) |}
    /\ requests s' = requests s ++ [POST_refresh token]
    /\ console s' = console s.
Proof.
  intros Htoken Hne Hrenewed.
  step_store. rewrite Htoken, Hne. tidy.
  rewrite refreshToken_settles. tidy. rewrite Hrenewed.
  eexists. repeat split.
Qed.

Lemma refreshTokens_success_witness :
  exists s',
    useAuthStore.refreshTokens serving restored = (Return true, s')
    /\ session s' =
         {| user := user (session restored);
            accessToken := Some "a2";
            refreshToken := Some "b2";
            isLoading := isLoading (session restored);
            isAuthenticated := isAuthenticated (session restored) |}
    /\ requests s' = requests restored ++ [POST_refresh "b"]
    /\ console s' = console restored.
Proof.
  apply (refreshTokens_success serving restored (token := "b")
           (renewed := RefreshResponse.make (Some "a2") (Some "b2")));
    reflexivity.
Defined.

(** X3.  When no access token is held (it is null or the empty string),
    [checkAuth] sends nothing and changes nothing but [isLoading], which
    ends false: a user or a refresh token left in the session stay. *)
Theorem checkAuth_without_token remote s :
  truthy (accessToken (session s)) = false ->
  exists s',
    useAuthStore.checkAuth remote s = (Return tt, s')
    /\ session s' = assign (session s) (isLoading_ false)
    /\ requests s' = requests s
    /\ console s' = console s.
Proof.
  intros Hnone. step_store.
  destruct (accessToken (session s)) as [token |]; cbn [truthy] in Hnone; tidy.
  - rewrite Hnone. tidy. eexists. repeat split.
  - eexists. repeat split.
Qed.

Lemma checkAuth_without_token_witness :
  exists s',
    useAuthStore.checkAuth offline fresh = (Return tt, s')
    /\ session s' = assign (session fresh) (isLoading_ false)
    /\ requests s' = requests fresh
    /\ console s' = console fresh.
Proof.
  apply (checkAuth_without_token offline fresh). reflexivity.
Defined.

(** X4.  When the access token held is accepted, [checkAuth] sends that
    one request and ends with the body fetched as user, [isAuthenticated]
    true and [isLoading] false; neither token is changed and no refresh is
    tried. *)
Theorem checkAuth_valid_token remote s token u :
  accessToken (session s) = Some token ->
  nonempty token = true ->
  on_me remote (now s) token = Responded (Ok (Body u)) ->
  exists s',
    useAuthStore.checkAuth remote s = (Return tt, s')
    /\ session s' =
         {| user := u;
            accessToken := Some token;
            refreshToken := refreshToken (session s);
            isLoading := false;
            isAuthenticated := true |}
    /\ requests s' = requests s ++ [GET_me token]
    /\ console s' = console s.
Proof.
  intros Htoken Hne Hme.
  step_store. rewrite Htoken, Hne. tidy.
  rewrite getMe_settles. tidy. rewrite Hme. cbn [settle]. rewrite Htoken.
  eexists. repeat split.
Qed.

Lemma checkAuth_valid_token_witness :
  exists s',
    useAuthStore.checkAuth serving restored = (Return tt, s')
    /\ session s' =
         {| user := Some alice;
            accessToken := Some "a";
            refreshToken := refreshToken (session restored);
            isLoading := false;
            isAuthenticated := true |}
    /\ requests s' = requests restored ++ [GET_me "a"]
    /\ console s' = console restored.
Proof.
  apply (checkAuth_valid_token serving restored (token := "a") (u := Some alice));
    reflexivity.
Defined.

(** X5.  [checkAuth] never throws, whatever the remote answers.  It sends
    at most three requests and ends with [isLoading] false, in one of
    three ways: authenticated, with an access token that is not empty,
    its last request being a successful fetch of the current user with
    that token and the user being the body answered, a user or null;
    fully signed out; or, when no access token was held, with the session
    it found. *)
Theorem checkAuth_settles remote s :
  exists s' sent_now,
    useAuthStore.checkAuth remote s = (Return tt, s')
    /\ isLoading (session s') = false
    /\ requests s' = requests s ++ sent_now
    /\ length sent_now <= 3
    /\ ((isAuthenticated (session s') = true
         /\ truthy (accessToken (session s')) = true
         /\ exists token u,
              identity_fetched remote s' token u
              /\ accessToken (session s') = Some token
              /\ user (session s') = u)
        \/ session s' = signed_out
        \/ (truthy (accessToken (session s)) = false
            /\ session s' = assign (session s) (isLoading_ false))).
Proof.
  explore.
  all: tidy.
  all: repeat match goal with
         | H : settle _ (on_me _ _ _) = Return _ |- _ => apply settle_returns in H
         end.
  all: eexists; eexists; split; [reflexivity |]; tidy.
  all: split; [reflexivity |].
  all: split;
    [ rewrite <- ?app_assoc; cbn [app];
      first [ reflexivity | symmetry; apply app_nil_r ] |].
  all: split; [cbn [length]; lia |].
  all: cbn [truthy].
  all: first
    [ right; left; reflexivity
    | right; right; split; [ | reflexivity];
      first [ reflexivity
            | match goal with H : negb ?b = true |- ?b = false =>
                now destruct b end ]
    | left; split; [reflexivity |]; split;
      [ first [ assumption
              | match goal with H : negb ?b = false |- ?b = true =>
                  now destruct b end ]
      | do 2 eexists; split;
        [ eexists; split; [reflexivity | eassumption] | split; reflexivity ] ] ].
Qed.



(** X7.  When the fetch of the current user succeeds,
    [handleOAuthCallback T1 T2] returns with the body fetched as user, the two
    tokens it was given, [isAuthenticated] true and [isLoading] false,
    after one request presenting T1. *)
Theorem handleOAuthCallback_success remote s T1 T2 u :
  on_me remote (now s) T1 = Responded (Ok (Body u)) ->
  useAuthStore.handleOAuthCallback remote T1 T2 s
  = (Return tt,
     {| session :=
          {| user := u; accessToken := Some T1; refreshToken := Some T2;
             isLoading := false; isAuthenticated := true |};
        storage := Some (Persisted.make (Some T1) (Some T2) u);
        requests := requests s ++ [GET_me T1];
        console := console s |}).
Proof.
  intros Hme. step_store. rewrite getMe_settles. tidy. now rewrite Hme.
Qed.

Lemma handleOAuthCallback_success_witness :
  useAuthStore.handleOAuthCallback serving "T1" "T2" fresh
  = (Return tt,
     {| session :=
          {| user := Some alice; accessToken := Some "T1"; refreshToken := Some "T2";
             isLoading := false; isAuthenticated := true |};
        storage := Some (Persisted.make (Some "T1") (Some "T2") (Some alice));
        requests := requests fresh ++ [GET_me "T1"];
        console := console fresh |}).
Proof.
  apply (handleOAuthCallback_success serving fresh "T1" "T2" (u := Some alice)).
  reflexivity.
Defined.

(* ================================================================== *)
(** ** What the operations send *)

(** X8.  An operation only adds to the requests sent: none for [setUser],
    [setTokens] and a reload, at most one for [logout] and
    [refreshTokens], at most three for [checkAuth], and exactly one for
    [login], [signup] and [handleOAuthCallback], whatever the remote
    answers. *)
Theorem requests_only_grow remote op s :
  exists sent_now,
    requests (after remote op s) = requests s ++ sent_now
    /\ length sent_now <= budget op
    /\ match op with
       | Login _ _ | Signup _ _ _ | HandleOAuthCallback _ _ => length sent_now = 1
       | _ => True
       end.
Proof.
  unfold after, perform.
  destruct op; explore.
  all: tidy; rewrite <- ?app_assoc; cbn [app].
  all: eexists; split;
    [ first [ reflexivity | symmetry; apply app_nil_r ] |].
  all: cbn [length budget]; split; [lia | trivial].
Qed.

(** X9.  [logout], [refreshTokens] and [checkAuth] never present an empty
    token: every request they send carries a token that is not the empty
    string. *)
Theorem no_empty_credential remote s :
  (exists sent_now,
     requests (after remote Logout s) = requests s ++ sent_now
     /\ Forall (fun rq => truthy (credential rq) = true) sent_now)
  /\ (exists sent_now,
        requests (after remote RefreshTokens s) = requests s ++ sent_now
        /\ Forall (fun rq => truthy (credential rq) = true) sent_now)
  /\ (exists sent_now,
        requests (after remote CheckAuth s) = requests s ++ sent_now
        /\ Forall (fun rq => truthy (credential rq) = true) sent_now).
Proof.
  unfold after, perform.
  repeat split; explore.
  all: tidy; rewrite <- ?app_assoc; cbn [app].
  all: eexists; split;
    [ first [ reflexivity | symmetry; apply app_nil_r ] |].
  all: repeat constructor; cbn [credential truthy].
  all: match goal with
       | H : negb ?b = false |- ?b = true => now destruct b
       | H : ?b = true |- ?b = true => exact H
       end.
Qed.

(* ================================================================== *)
(** ** The store and its storage, one operation after another *)

(** X10.  In every reachable store the entry in storage is the projection
    of the session, user and tokens; and as long as nothing was written,
    the session is the initial one. *)
Theorem storage_follows_session remote s :
  reachable remote s ->
  match storage s with
  | Some stored =>
      Persisted.user stored = user (session s)
      /\ Persisted.accessToken stored = accessToken (session s)
      /\ Persisted.refreshToken stored = refreshToken (session s)
  | None => session s = useAuthStore.initial
  end.
Proof.
  intros Hreach. pose proof (reachable_synced Hreach) as Hsync.
  unfold synced in Hsync.
  destruct (storage s) as [stored |]; [| exact Hsync].
  subst stored. repeat split.
Qed.

Lemma storage_follows_session_witness :
  match storage (after_all serving [Login "e@x.com" "secret"; RefreshTokens] fresh) with
  | Some stored =>
      Persisted.user stored
      = user (session (after_all serving [Login "e@x.com" "secret"; RefreshTokens] fresh))
      /\ Persisted.accessToken stored
         = accessToken
             (session (after_all serving [Login "e@x.com" "secret"; RefreshTokens] fresh))
      /\ Persisted.refreshToken stored
         = refreshToken
             (session (after_all serving [Login "e@x.com" "secret"; RefreshTokens] fresh))
  | None =>
      session (after_all serving [Login "e@x.com" "secret"; RefreshTokens] fresh)
      = useAuthStore.initial
  end.
Proof.
  apply (storage_follows_session (remote := serving)).
  exists [Login "e@x.com" "secret"; RefreshTokens]. reflexivity.
Defined.

(** X11.  Once [logout] has returned, a second [logout], a [checkAuth] or
    a [refreshTokens] sends nothing and leaves the session signed out. *)
Theorem after_logout_silent remote s :
  let out := after remote Logout s in
  (session (after remote Logout out) = signed_out
   /\ requests (after remote Logout out) = requests out)
  /\ (session (after remote CheckAuth out) = signed_out
      /\ requests (after remote CheckAuth out) = requests out)
  /\ (session (after remote RefreshTokens out) = signed_out
      /\ requests (after remote RefreshTokens out) = requests out).
Proof.
  cbv zeta.
  assert (Hsilent : forall out,
             session out = signed_out ->
             (session (after remote Logout out) = signed_out
              /\ requests (after remote Logout out) = requests out)
             /\ (session (after remote CheckAuth out) = signed_out
                 /\ requests (after remote CheckAuth out) = requests out)
             /\ (session (after remote RefreshTokens out) = signed_out
                 /\ requests (after remote RefreshTokens out) = requests out)).
  { intros out Hout. unfold after, perform. step_store. rewrite Hout. cbn.
    now repeat split. }
  apply Hsilent.
  unfold after, perform. explore; reflexivity.
Qed.

(** X12.  A session survives a reload: from a reachable store that holds
    an access token the service still accepts, a reload followed by
    [checkAuth] ends with the same two tokens, the body fetched as user,
    [isAuthenticated] true and [isLoading] false. *)
Theorem reload_restores_session remote s token u :
  reachable remote s ->
  accessToken (session s) = Some token ->
  nonempty token = true ->
  on_me remote (now s) token = Responded (Ok (Body u)) ->
  session (after_all remote [Reload; CheckAuth] s)
  = {| user := u;
       accessToken := Some token;
       refreshToken := refreshToken (session s);
       isLoading := false;
       isAuthenticated := true |}.
Proof.
  intros Hreach Htoken Hne Hme.
  pose proof (reachable_synced Hreach) as Hsync.
  unfold synced in Hsync.
  destruct (storage s) as [stored |] eqn:Hstored.
  - set (reloaded := after remote Reload s).
    assert (Hreloaded : accessToken (session reloaded) = Some token
                        /\ refreshToken (session reloaded) = refreshToken (session s)
                        /\ now reloaded = now s).
    { subst reloaded. unfold after, perform, useAuthStore.reload. cbn [snd session].
      rewrite Hstored, Hsync. cbn. now repeat split. }
    destruct Hreloaded as (Hheld & Hrefresh & Hnow).
    rewrite <- Hnow in Hme.
    cbn [after_all fold_left]. fold reloaded.
    unfold after at 1. unfold perform.
    step_store. rewrite Hheld, Hne. tidy.
    rewrite getMe_settles. tidy. rewrite Hme. cbn [settle]. tidy.
    now rewrite Hheld, Hrefresh.
  - rewrite Hsync in Htoken. discriminate Htoken.
Qed.

Lemma reload_restores_session_witness :
  session (after_all serving [Reload; CheckAuth]
             (after_all serving [Login "e@x.com" "secret"] fresh))
  = {| user := Some alice;
       accessToken := Some "a";
       refreshToken :=
         refreshToken (session (after_all serving [Login "e@x.com" "secret"] fresh));
       isLoading := false;
       isAuthenticated := true |}.
Proof.
  apply (reload_restores_session (remote := serving) (token := "a") (u := Some alice)).
  - exists [Login "e@x.com" "secret"]. reflexivity.
  - reflexivity.
  - reflexivity.
  - reflexivity.
Defined.

(** X13.  The tokens of a callback whose fetch failed are written to
    storage all the same, beside the user that was there; after a reload,
    [checkAuth] presents the access token of that callback first. *)
Theorem failed_callback_tokens_reused remote s T1 T2 :
  fails (on_me remote (now s) T1) = true ->
  let failed := after remote (HandleOAuthCallback T1 T2) s in
  storage failed = Some (Persisted.make (Some T1) (Some T2) (user (session s)))
  /\ (nonempty T1 = true ->
      exists later,
        requests (after_all remote [Reload; CheckAuth] failed)
        = requests failed ++ GET_me T1 :: later).
Proof.
  intros Hfails. cbv zeta.
  destruct (settle_fails "Failed to fetch user" _ Hfails) as [e He].
  unfold after_all, after, perform. cbn [fold_left].
  step_store. rewrite getMe_settles. tidy. rewrite He. tidy.
  split; [reflexivity |].
  intros Hne. cbn [useAuthStore.rehydrate useAuthStore.partialize
                   Persisted.accessToken accessToken].
  rewrite Hne. tidy. rewrite getMe_settles. tidy.
  explore; tidy; eexists; rewrite <- ?app_assoc; cbn [app]; reflexivity.
Qed.

Lemma failed_callback_tokens_reused_witness :
  storage (after credentials_only (HandleOAuthCallback "T1" "T2") fresh)
  = Some (Persisted.make (Some "T1") (Some "T2") (user (session fresh)))
  /\ (nonempty "T1" = true ->
      exists later,
        requests (after_all credentials_only [Reload; CheckAuth]
                    (after credentials_only (HandleOAuthCallback "T1" "T2") fresh))
        = requests (after credentials_only (HandleOAuthCallback "T1" "T2") fresh)
          ++ GET_me "T1" :: later).
Proof.
  apply (failed_callback_tokens_reused credentials_only fresh "T1" "T2").
  reflexivity.
Defined.

(* ================================================================== *)
(** ** [authApi], method by method *)

Lemma settle_return_iff (A : Type) (fallback : string) (r : FetchResult A) (a : A) :
  settle fallback r = Return a <-> r = Responded (Ok (Body a)).
Proof.
  split; [apply settle_returns | now intros ->].
Qed.

(** X14.  Each method of [authApi] sends exactly one request and touches
    nothing else: the session, the entry in storage and the console are
    as before.  It returns a value exactly when a response arrives with
    [response.ok] and a body that parses, and that value is the body; in
    every other case it throws. *)
Theorem authApi_one_request remote s :
  (forall email password displayName,
     exists c,
       authApi.signup remote email password displayName s
       = (c, sent (POST_signup email password displayName) s)
       /\ forall a, c = Return a <->
                    on_signup remote (now s) email password displayName
                    = Responded (Ok (Body a)))
  /\ (forall email password,
        exists c,
          authApi.login remote email password s
          = (c, sent (POST_login email password) s)
          /\ forall a, c = Return a <->
                       on_login remote (now s) email password
                       = Responded (Ok (Body a)))
  /\ (forall token,
        exists c,
          authApi.logout remote token s = (c, sent (POST_logout token) s)
          /\ forall a, c = Return a <->
                       on_logout remote (now s) token = Responded (Ok (Body a)))
  /\ (forall token,
        exists c,
          authApi.getMe remote token s = (c, sent (GET_me token) s)
          /\ forall a, c = Return a <->
                       on_me remote (now s) token = Responded (Ok (Body a)))
  /\ (forall token,
        exists c,
          authApi.refreshToken remote token s = (c, sent (POST_refresh token) s)
          /\ forall a, c = Return a <->
                       on_refresh remote (now s) token = Responded (Ok (Body a))).
Proof.
  repeat split; intros; eexists;
    (split; [ first [ apply signup_settles | apply login_settles
                    | apply logout_settles | apply getMe_settles
                    | apply refreshToken_settles ]
            | intros a; apply settle_return_iff ]).
Qed.

Lemma ToString_objects (items : list Json) :
  Forall plain_object items ->
  ToString (JArray items)
  = Some (String.concat "," (map (fun _ => object_Object) items)).
Proof.
  induction 1 as [| x rest Hx Hrest IH]; [reflexivity |].
  destruct x as [| b | n | t | inner | fields]; try contradiction.
  cbn [plain_object] in Hx.
  change (ToString (JArray (JObject fields :: rest)))
    with (match ToString (JObject fields) with
          | None => None
          | Some sx =>
              match rest with
              | [] => Some sx
              | _ :: _ =>
                  match ToString (JArray rest) with
                  | None => None
                  | Some sr => Some (sx ++ "," ++ sr)%string
                  end
              end
          end).
  cbn [ToString is_some] in *. rewrite Hx. cbn [is_some].
  destruct rest as [| y rest']; [reflexivity |].
  rewrite IH. reflexivity.
Qed.

(** X15.  When the service refuses a login with a [detail] that is a list
    of objects, as for a request that fails validation, the message of the
    error [login] throws is [[object Object]] once per item, joined by
    commas: nothing the objects hold is shown, and for an empty list the
    message is empty. *)
Theorem validation_detail_unreadable remote s email password items :
  Forall plain_object items ->
  on_login remote (now s) email password
  = Responded (NotOk (Body (JObject [("detail", JArray items)]))) ->
  fst (useAuthStore.login remote email password s)
  = Throw (mkError "Error"
             (String.concat "," (map (fun _ => object_Object) items))).
Proof.
  intros Hitems Hanswer.
  step_store. rewrite login_settles. tidy. rewrite Hanswer.
  cbn [settle]. unfold refusal.
  change (lookup "detail" [("detail", JArray items)]) with (Some (JArray items)).
  cbn [or_else]. rewrite (ToString_objects Hitems). reflexivity.
Qed.

Lemma validation_detail_unreadable_witness :
  fst (useAuthStore.login
         {| on_signup := on_signup refusing;
            on_login := fun _ _ _ =>
              Responded
                (NotOk
                   (Body
                      (JObject
                         [("detail",
                           JArray [JObject [("msg", JString "field required")];
                                   JObject [("msg", JString "value is not an email")]])])));
            on_logout := on_logout refusing;
            on_me := on_me refusing;
            on_refresh := on_refresh refusing |}
         "e" "" fresh)
  = Throw (mkError "Error"
             (String.concat ","
                (map (fun _ => object_Object)
                     [JObject [("msg", JString "field required")];
                      JObject [("msg", JString "value is not an email")]]))).
Proof.
  apply validation_detail_unreadable.
  - repeat constructor.
  - reflexivity.
Defined.

(* ================================================================== *)
(** ** The pages that call the store *)

(** X16.  Without an [error] parameter, a callback that lacks one of the
    two tokens, or carries an empty one, ends with the error
    [Missing authentication tokens]; the action is not called, the store
    is as it was and nothing is navigated to. *)
Theorem callback_missing_token handler params page s :
  truthy (URLSearchParams.get params "error") = false ->
  truthy (URLSearchParams.get params "access_token") = false
  \/ truthy (URLSearchParams.get params "refresh_token") = false ->
  AuthCallbackPage.processCallback handler params page s
  = (Return (AuthCallbackPage.setError "Missing authentication tokens" page), s).
Proof.
  intros Herror Hmissing.
  unfold AuthCallbackPage.processCallback. rewrite Herror.
  destruct (URLSearchParams.get params "access_token") as [a |];
    destruct (URLSearchParams.get params "refresh_token") as [r |];
    cbn [truthy] in Hmissing; try reflexivity.
  destruct Hmissing as [H | H]; rewrite H; [reflexivity |].
  now rewrite orb_true_r.
Qed.

Lemma callback_missing_token_witness :
  AuthCallbackPage.processCallback (useAuthStore.handleOAuthCallback serving)
    (URLSearchParams.parse "access_token=T1&refresh_token=") AuthCallbackPage.mounted fresh
  = (Return (AuthCallbackPage.setError "Missing authentication tokens"
               AuthCallbackPage.mounted),
     fresh).
Proof.
  apply callback_missing_token.
  - reflexivity.
  - right. reflexivity.
Defined.

(** X17.  The callback page never lets an error escape.  It ends in one
    of two ways.  Either no error is set, one navigation to [/dashboard]
    was asked, the page still shows its spinner, and the session is
    authenticated, its last request being a successful fetch of the
    current user with the access token now held and its user the body
    answered.  Or an error message is set and nothing was navigated to,
    the store being untouched or [isAuthenticated] false; the page then
    shows that message when it is not empty, and otherwise, as after an
    error thrown with an empty message, it keeps showing the spinner. *)
Theorem callback_outcome remote params s :
  exists page s',
    AuthCallbackPage.run remote params s = (Return page, s')
    /\ ((AuthCallbackPage.error page = None
         /\ AuthCallbackPage.pushed page = ["/dashboard"]
         /\ AuthCallbackView.render page = AuthCallbackView.Spinner
         /\ isAuthenticated (session s') = true
         /\ exists token u,
              identity_fetched remote s' token u
              /\ accessToken (session s') = Some token
              /\ user (session s') = u)
        \/ (exists msg,
              AuthCallbackPage.error page = Some msg
              /\ AuthCallbackPage.pushed page = []
              /\ AuthCallbackView.render page
                 = (if nonempty msg then AuthCallbackView.ErrorCard msg
                    else AuthCallbackView.Spinner)
              /\ (s' = s \/ isAuthenticated (session s') = false))).
Proof.
  unfold AuthCallbackPage.run, AuthCallbackPage.processCallback.
  destruct (truthy (URLSearchParams.get params "error")).
  - do 2 eexists. split; [reflexivity |]. right.
    eexists. repeat split. now left.
  - destruct (URLSearchParams.get params "access_token") as [a |];
      [destruct (URLSearchParams.get params "refresh_token") as [r |] |].
    + destruct (negb (nonempty a) || negb (nonempty r)).
      * do 2 eexists. split; [reflexivity |]. right.
        eexists. repeat split. now left.
      * step_store. rewrite getMe_settles. tidy.
        destruct (settle _ _) as [u | e] eqn:Hsettled;
          do 2 eexists; (split; [reflexivity |]).
        -- left. apply settle_returns in Hsettled.
           repeat split. exists a, u. repeat split.
           eexists. split; [reflexivity | exact Hsettled].
        -- right. eexists. repeat split. now right.
    + do 2 eexists. split; [reflexivity |]. right.
      eexists. repeat split. now left.
    + do 2 eexists. split; [reflexivity |]. right.
      eexists. repeat split. now left.
Qed.

(** X18.  [handleSubmit] of the login page never throws.  When the service
    accepts the credentials it clears the error and navigates once to
    [/dashboard]; when the login fails it navigates nowhere, the error
    shown is the message of the error thrown, and the session is as before
    the call with [isLoading] false. *)
Theorem handleSubmit_outcome remote email password page s :
  (forall response,
     on_login remote (now s) email password = Responded (Ok (Body response)) ->
     exists s',
       LoginPage.handleSubmit remote email password page s
       = (Return {| LoginPage.error := "";
                    LoginPage.pushed := LoginPage.pushed page ++ ["/dashboard"] |}, s')
       /\ isAuthenticated (session s') = true
       /\ user (session s') = Some (AuthResponse.user response))
  /\ (forall e,
        settle "Login failed" (on_login remote (now s) email password) = Throw e ->
        exists s',
          LoginPage.handleSubmit remote email password page s
          = (Return {| LoginPage.error := message e;
                       LoginPage.pushed := LoginPage.pushed page |}, s')
          /\ untouched (session s) (session s')).
Proof.
  split.
  - intros response Haccepted.
    unfold LoginPage.handleSubmit. step_store. rewrite login_settles. tidy.
    rewrite Haccepted. cbn [settle]. eexists. repeat split.
  - intros e Hthrown.
    unfold LoginPage.handleSubmit. step_store. rewrite login_settles. tidy.
    rewrite Hthrown. eexists. split; [reflexivity |]. now repeat split.
Qed.

Lemma handleSubmit_outcome_witness :
  exists s',
    LoginPage.handleSubmit refusing "e@x.com" "secret"
      {| LoginPage.error := "old"; LoginPage.pushed := [] |} fresh
    = (Return {| LoginPage.error := "Invalid login credentials";
                 LoginPage.pushed := [] |}, s')
    /\ untouched (session fresh) (session s').
Proof.
  apply (proj2 (handleSubmit_outcome refusing "e@x.com" "secret"
                  {| LoginPage.error := "old"; LoginPage.pushed := [] |} fresh)
           (mkError "Error" "Invalid login credentials")).
  reflexivity.
Defined.

(** X19.  [handleLogout] of the user menu always ends signed out and on
    the login page: whatever the remote answers it returns, the session is
    cleared with [isLoading] false, and one navigation to [/auth/login] is
    added. *)
Theorem handleLogout_always_leaves remote pushed s :
  exists s',
    UserDropdown.handleLogout remote pushed s
    = (Return (pushed ++ ["/auth/login"]), s')
    /\ session s' = signed_out.
Proof.
  unfold UserDropdown.handleLogout. explore; eexists; split; reflexivity.
Qed.

Lemma split_head (sep : ascii) (s : string) :
  exists prefix others,
    URLSearchParams.split sep s = prefix :: others
    /\ includes sep prefix = false
    /\ (s = prefix
        \/ exists tail, s = (prefix ++ String sep tail)%string).
Proof.
  induction s as [| c rest IH].
  - exists EmptyString, []. repeat split. now left.
  - cbn [URLSearchParams.split].
    destruct (Ascii.eqb c sep) eqn:Hc.
    + apply Ascii.eqb_eq in Hc. subst c.
      exists EmptyString. eexists. repeat split. right. exists rest. reflexivity.
    + destruct IH as (prefix & others & Hsplit & Hclean & Hshape).
      rewrite Hsplit. exists (String c prefix), others.
      split; [reflexivity |]. split.
      * cbn [includes]. now rewrite Hc.
      * destruct Hshape as [-> | [tail ->]]; [now left |].
        right. exists tail. reflexivity.
Qed.

(** X20.  The name on the button of the user menu is always defined.  It
    is the display name when that is not empty; otherwise it is the part
    of the email before its first [@]: it holds no [@], and the email is
    that part alone or that part, an [@] and a rest.  An email that
    starts with [@] gives the empty name. *)
Theorem label_from_email u :
  (forall shown,
     display_name u = Some shown -> nonempty shown = true ->
     UserDropdown.label u = Some shown)
  /\ (truthy (display_name u) = false ->
      exists prefix,
        UserDropdown.label u = Some prefix
        /\ includes "@"%char prefix = false
        /\ (email u = prefix
            \/ exists tail, email u = (prefix ++ String "@"%char tail)%string)).
Proof.
  unfold UserDropdown.label, UserDropdown.before_at. split.
  - intros shown -> ->. reflexivity.
  - intros Hnone.
    destruct (split_head "@"%char (email u)) as (prefix & others & Hsplit & Hrest).
    exists prefix. rewrite Hsplit. cbn [hd_error].
    destruct (display_name u) as [shown |]; cbn [truthy] in Hnone;
      [rewrite Hnone |]; now split.
Qed.

Lemma label_from_email_witness :
  exists prefix,
    UserDropdown.label alice = Some prefix
    /\ includes "@"%char prefix = false
    /\ (email alice = prefix
        \/ exists tail, email alice = (prefix ++ String "@"%char tail)%string).
Proof.
  apply (proj2 (label_from_email alice)). reflexivity.
Defined.

(* ================================================================== *)
(** ** [ProtectedRoute] over the store *)

(** X21.  In every reachable store for which the guard renders its
    children, the session is authenticated and not loading, and the
    guard's effect navigates nowhere.  The user of that session is not
    null provided no fetch of the current user succeeded with the body
    [null]; the guard itself does not look at the user, and after a
    callback whose fetch was answered [null] it renders its children for
    a session without a user. *)
Theorem guard_children_have_user :
  (forall remote s pathname browser,
     reachable remote s ->
     ProtectedRoute.render (session s) = ProtectedRoute.Children ->
     isAuthenticated (session s) = true
     /\ isLoading (session s) = false
     /\ ProtectedRoute.redirect (session s) pathname browser = browser
     /\ (answers_users remote -> user (session s) <> None))
  /\ (ProtectedRoute.render
        (session (after_all careless [HandleOAuthCallback "T1" "T2"] fresh))
      = ProtectedRoute.Children
      /\ user (session (after_all careless [HandleOAuthCallback "T1" "T2"] fresh))
         = None).
Proof.
  split; [| split; reflexivity].
  intros remote s pathname browser Hreach Hrender.
  unfold ProtectedRoute.render, ProtectedRoute.redirect in *.
  destruct (isLoading (session s)); [discriminate |].
  destruct (isAuthenticated (session s)) eqn:Hauth; [| discriminate].
  repeat split. intros Hanswers. now apply (reachable_identified Hanswers Hreach).
Qed.

Lemma guard_children_have_user_witness :
  isAuthenticated (session (after_all serving [Login "e@x.com" "secret"] fresh)) = true
  /\ isLoading (session (after_all serving [Login "e@x.com" "secret"] fresh)) = false
  /\ ProtectedRoute.redirect
       (session (after_all serving [Login "e@x.com" "secret"] fresh))
       "/repositories" (ProtectedRoute.mkBrowser None [])
     = ProtectedRoute.mkBrowser None []
  /\ (answers_users serving ->
      user (session (after_all serving [Login "e@x.com" "secret"] fresh)) <> None).
Proof.
  apply (proj1 guard_children_have_user serving).
  - exists [Login "e@x.com" "secret"]. reflexivity.
  - reflexivity.
Defined.

(** X22.  Once [checkAuth] has settled, from any store and whatever the
    remote answered, the guard no longer shows its fallback: it renders
    its children, and its effect navigates nowhere; or it renders nothing,
    and its effect remembers the path and navigates to [/auth/login]. *)
Theorem guard_after_checkAuth remote s pathname browser :
  let settled := session (after remote CheckAuth s) in
  (ProtectedRoute.render settled = ProtectedRoute.Children
   /\ isAuthenticated settled = true
   /\ ProtectedRoute.redirect settled pathname browser = browser)
  \/ (ProtectedRoute.render settled = ProtectedRoute.Nothing
      /\ isAuthenticated settled = false
      /\ ProtectedRoute.redirect settled pathname browser
         = {| ProtectedRoute.redirectAfterLogin := Some pathname;
              ProtectedRoute.pushed :=
                ProtectedRoute.pushed browser ++ ["/auth/login"] |}).
Proof.
  cbv zeta.
  assert (Hloading : isLoading (session (after remote CheckAuth s)) = false).
  { unfold after, perform. explore; reflexivity. }
  unfold ProtectedRoute.render, ProtectedRoute.redirect.
  rewrite Hloading.
  destruct (isAuthenticated (session (after remote CheckAuth s)));
    [left | right]; repeat split.
Qed.

(* ================================================================== *)
(** ** The repository client *)

Ltac step_prog :=
  cbv [repositories.fetchWithAuth repositories.fetch_call
       Async.and_then Async.pure Async.raise Async.attempt Async.ensure
       Async.on_store Async.update Async.router_push Async.current].

Lemma entry_token (s : Store) :
  synced s ->
  repositories.chain (repositories.chain (Some (repositories.parsed_entry s)) "state")
                     "accessToken"
  = match storage s with
    | Some _ => Some (JSONStorage.string_or_null (accessToken (session s)))
    | None => None
    end.
Proof.
  unfold synced, repositories.parsed_entry.
  destruct (storage s) as [p |]; [intros -> | intros _]; reflexivity.
Qed.

Lemma refusal_on_store (P A : Type) (error : Json) (fallback : string) (w : Env P) :
  Async.and_then (Async.on_store (detail error))
    (fun d =>
       Async.and_then (Async.on_store (new_Error (or_else d fallback)))
         (fun e => @Async.raise (Env P) A e)) w
  = (Throw (refusal error fallback), w).
Proof.
  destruct w as [s f n v].
  unfold Async.and_then, Async.on_store, Async.raise, detail, new_Error, refusal,
    ret, throw.
  cbn [store fetched navigated view].
  destruct error; try reflexivity;
    match goal with |- context [ToString ?x] => destruct (ToString x) end;
    reflexivity.
Qed.

(** How [fetchWithAuth] settles on an answer. *)
Lemma fetchWithAuth_after_fetch (P A : Type) (r : HttpResponse A) (w : Env P) :
  match r with
  | NotOk payload =>
      Async.and_then
        (match payload with
         | Malformed _ =>
             Async.pure (JObject [("detail", JString "Request failed")])
         | Body parsed => Async.pure parsed
         end)
        (fun error =>
           Async.and_then (Async.on_store (detail error))
             (fun d =>
                Async.and_then
                  (Async.on_store (new_Error (or_else d "Request failed")))
                  (fun e => Async.raise e)))
  | Ok payload =>
      match payload with
      | Malformed e => Async.raise e
      | Body a => Async.pure a
      end
  end w
  = (match r with
     | NotOk (Malformed _) => Throw (mkError "Error" "Request failed")
     | NotOk (Body error) => Throw (refusal error "Request failed")
     | Ok (Malformed e) => Throw e
     | Ok (Body a) => Return a
     end, w).
Proof.
  destruct r as [[e | error] | [e | a]]; try reflexivity.
  - unfold Async.and_then at 1, Async.pure.
    now rewrite (@refusal_on_store P A).
  - unfold Async.and_then at 1, Async.pure.
    now rewrite (@refusal_on_store P A).
Qed.

(** X23.  In the browser, on every reachable store, a call of
    [fetchWithAuth] that is given no headers sends [Content-Type:
    application/json] and, exactly when the session holds an access token
    that is not empty, [Authorization: Bearer] followed by that token; it
    makes this one call, and changes neither the store, nor the router,
    nor the component. *)
Theorem bearer_is_session_token (P A : Type) remote
    (answer : nat -> Call -> FetchResult A) url options (w : Env P) :
  reachable remote (store w) ->
  headers options = [] ->
  exists c,
    repositories.fetchWithAuth true answer url options w
    = (c, called {| url := url;
                    init := {| method := method options;
                               body := body options;
                               headers :=
                                 ("Content-Type", "application/json")
                                   :: authorization_of (session (store w)) |} |} w).
Proof.
  intros Hreach Hheaders.
  pose proof (reachable_synced Hreach) as Hsync.
  unfold repositories.fetchWithAuth.
  rewrite (@entry_token (store w) Hsync), Hheaders.
  assert (Hauthorization :
    (if repositories.truthy_value
          match storage (store w) with
          | Some _ =>
              Some (JSONStorage.string_or_null (accessToken (session (store w))))
          | None => None
          end
     then
       match
         match storage (store w) with
         | Some _ =>
             Some (JSONStorage.string_or_null (accessToken (session (store w))))
         | None => None
         end
       with
       | Some t =>
           match ToString t with
           | Some text =>
               @Async.pure (Env P) _ [("Authorization", ("Bearer " ++ text)%string)]
           | None =>
               Async.raise
                 (mkError "TypeError" "Cannot convert object to primitive value")
           end
       | None => Async.pure []
       end
     else Async.pure [])
    = Async.pure (authorization_of (session (store w)))).
  { unfold authorization_of. unfold synced in Hsync.
    destruct (storage (store w)) as [p |].
    - destruct (accessToken (session (store w))) as [t |]; cbn; [| reflexivity].
      destruct (nonempty t); reflexivity.
    - rewrite Hsync. reflexivity. }
  rewrite Hauthorization.
  unfold Async.and_then at 1. unfold Async.pure at 1.
  unfold Async.and_then at 1. unfold repositories.fetch_call.
  assert (Hspread :
    repositories.spread
      (repositories.spread [("Content-Type", "application/json")]
                           (authorization_of (session (store w)))) []
    = ("Content-Type", "application/json") :: authorization_of (session (store w))).
  { unfold authorization_of.
    destruct (accessToken (session (store w))) as [t |]; [| reflexivity].
    destruct (nonempty t); reflexivity. }
  rewrite Hspread.
  destruct (answer (length (fetched w)) _) as [e | r].
  - eexists. reflexivity.
  - eexists. apply fetchWithAuth_after_fetch.
Qed.

Lemma bearer_is_session_token_witness :
  exists c,
    repositories.fetchWithAuth true (on_get accepting)
      "http://localhost:8000/api/repositories/r1" repositories.no_options
      (opened (after_all serving [Login "e@x.com" "secret"] fresh) tt)
    = (c, called {| url := "http://localhost:8000/api/repositories/r1";
                    init := {| method := None; body := None;
                               headers := [("Content-Type", "application/json");
                                           ("Authorization", "Bearer a")] |} |}
            (opened (after_all serving [Login "e@x.com" "secret"] fresh) tt)).
Proof.
  apply (bearer_is_session_token (remote := serving) (on_get accepting)
           "http://localhost:8000/api/repositories/r1" repositories.no_options
           (opened (after_all serving [Login "e@x.com" "secret"] fresh) tt)).
  - exists [Login "e@x.com" "secret"]. reflexivity.
  - reflexivity.
Defined.

Lemma fetchWithAuth_runs (P A : Type) (window : bool)
    (answer : nat -> Call -> FetchResult A) url options (w : Env P) :
  let call := {| url := url;
                 init := {| method := method options;
                            body := body options;
                            headers := sent_headers window (store w) (headers options) |} |} in
  repositories.fetchWithAuth window answer url options w
  = (settle_request (answer (length (fetched w)) call), called call w).
Proof.
  cbv zeta. unfold repositories.fetchWithAuth, sent_headers.
  set (token := if window then _ else _).
  set (authorization := if window then _ else _).
  assert (Hpure :
    (if repositories.truthy_value token then
       match token with
       | Some t =>
           match ToString t with
           | Some text =>
               @Async.pure (Env P) _ [("Authorization", ("Bearer " ++ text)%string)]
           | None =>
               Async.raise
                 (mkError "TypeError" "Cannot convert object to primitive value")
           end
       | None => Async.pure []
       end
     else Async.pure [])
    = Async.pure authorization).
  { subst token authorization. destruct window; [| reflexivity].
    unfold repositories.parsed_entry.
    destruct (storage (store w)) as [p |]; [| reflexivity].
    destruct p as [[t |] r u]; cbn; [| reflexivity].
    destruct (nonempty t); reflexivity. }
  rewrite Hpure.
  unfold Async.and_then at 1. unfold Async.pure at 1.
  unfold Async.and_then at 1. unfold repositories.fetch_call.
  destruct (answer (length (fetched w)) _) as [e | r]; [reflexivity |].
  rewrite fetchWithAuth_after_fetch.
  destruct r as [[e | error] | [e | a]]; reflexivity.
Qed.

(** X24.  [fetchWithAuth] makes exactly one call, to the address and with
    the method and body it was given, and changes nothing else.  It
    returns the body exactly when the answer has [response.ok] and parses.
    When no response arrives it throws the error of the transport; when a
    successful answer does not parse, as one without a body, it throws the
    error of the parser; when an error answer does not parse, the parser's
    error is dropped and the message is [Request failed]. *)
Theorem fetchWithAuth_settles (P A : Type) (window : bool)
    (answer : nat -> Call -> FetchResult A) address options (w : Env P) :
  exists c call,
    repositories.fetchWithAuth window answer address options w = (c, called call w)
    /\ url call = address
    /\ method (init call) = method options
    /\ body (init call) = body options
    /\ (forall a, c = Return a <->
                  answer (length (fetched w)) call = Responded (Ok (Body a)))
    /\ (forall e, answer (length (fetched w)) call = Rejected e -> c = Throw e)
    /\ (forall e,
          answer (length (fetched w)) call = Responded (Ok (Malformed e)) ->
          c = Throw e)
    /\ (forall e,
          answer (length (fetched w)) call = Responded (NotOk (Malformed e)) ->
          c = Throw (mkError "Error" "Request failed")).
Proof.
  do 2 eexists. split; [apply fetchWithAuth_runs |].
  cbn [url init method body]. repeat split.
  - destruct (answer _ _) as [e | [[e | error] | [e | a']]]; cbn [settle_request];
      intros H; now inversion H.
  - intros H. now rewrite H.
  - intros e H. now rewrite H.
  - intros e H. now rewrite H.
  - intros e H. now rewrite H.
Qed.

Lemma fetchWithAuth_settles_witness :
  exists c,
    repositories.fetchWithAuth true (on_delete bad_gateway)
      "http://localhost:8000/api/repositories/r1"
      {| method := Some "DELETE"; body := None; headers := [] |}
      (opened restored tt)
    = (c, called {| url := "http://localhost:8000/api/repositories/r1";
                    init := {| method := Some "DELETE"; body := None;
                               headers := [("Content-Type", "application/json");
                                           ("Authorization", "Bearer a")] |} |}
            (opened restored tt))
    /\ c = Throw (mkError "Error" "Request failed").
Proof.
  destruct (fetchWithAuth_settles true (on_delete bad_gateway)
              "http://localhost:8000/api/repositories/r1"
              {| method := Some "DELETE"; body := None; headers := [] |}
              (opened restored tt))
    as (c & call & Hrun & _ & _ & _ & _ & _ & _ & Hdropped).
  exists c.
  assert (Hcall : call = {| url := "http://localhost:8000/api/repositories/r1";
                            init := {| method := Some "DELETE"; body := None;
                                       headers := [("Content-Type", "application/json");
                                                   ("Authorization", "Bearer a")] |} |}).
  { cbv in Hrun. inversion Hrun as [[Hc Hlog]]. reflexivity. }
  subst call. split; [exact Hrun |].
  apply (Hdropped (mkError "SyntaxError" "Unexpected token '<'")). reflexivity.
Defined.

Lemma append_assoc (a b c : string) : ((a ++ b) ++ c = a ++ (b ++ c))%string.
Proof.
  induction a as [| x a IH]; [reflexivity |]. cbn. now rewrite IH.
Qed.

(** X25.  The identifier of a repository goes into the address as it is:
    asking for the repository whose identifier is [id] followed by
    [/branches] (or [/webhooks]) makes the very call that asks for the
    branches (or the webhooks) of [id], and leaves the same state. *)
Theorem identifier_not_escaped (P : Type) base window service id (w : Env P) :
  snd (repositories.get base window service (id ++ "/branches") w)
  = snd (repositories.getBranches base window service id w)
  /\ snd (repositories.get base window service (id ++ "/webhooks") w)
     = snd (repositories.getWebhooks base window service id w).
Proof.
  unfold repositories.get, repositories.getBranches, repositories.getWebhooks.
  rewrite !fetchWithAuth_runs. cbn [snd].
  now rewrite <- !append_assoc.
Qed.

(* ================================================================== *)
(** ** The pages of the repositories *)

(** X26.  [handleSubmit] of the form that adds a repository never throws.
    A name without [/] is refused on the spot: no call is made and only
    the error changes.  A name with a [/] (nothing more is asked of it)
    is posted once as [full_name]; [loading] ends false in every case;
    when the service accepts, the page navigates to the repository it
    returned and the error is empty; otherwise it navigates nowhere and
    the error is the message of what was thrown. *)
Theorem add_repository_outcome base service (w : Env AddRepositoryContent.State) :
  let name := AddRepositoryContent.fullName (view w) in
  let call :=
    {| url := (repositories.API_BASE_URL base ++ "/api/repositories")%string;
       init := {| method := Some "POST";
                  body := Some (JObject [("full_name", JString name)]);
                  headers := sent_headers true (store w) [] |} |} in
  (includes "/"%char name = false ->
   AddRepositoryContent.handleSubmit base service w
   = (Return tt,
      {| store := store w; fetched := fetched w; navigated := navigated w;
         view := {| AddRepositoryContent.fullName := name;
                    AddRepositoryContent.loading :=
                      AddRepositoryContent.loading (view w);
                    AddRepositoryContent.error :=
                      "Please enter repository in owner/repo format" |} |}))
  /\ (includes "/"%char name = true ->
      forall repo,
        on_add service (length (fetched w)) call = Responded (Ok (Body repo)) ->
        AddRepositoryContent.handleSubmit base service w
        = (Return tt,
           {| store := store w; fetched := fetched w ++ [call];
              navigated := navigated w ++ [("/repositories/" ++ Repository.id repo)%string];
              view := {| AddRepositoryContent.fullName := name;
                         AddRepositoryContent.loading := false;
                         AddRepositoryContent.error := "" |} |}))
  /\ (includes "/"%char name = true ->
      forall e,
        settle_request (on_add service (length (fetched w)) call) = Throw e ->
        AddRepositoryContent.handleSubmit base service w
        = (Return tt,
           {| store := store w; fetched := fetched w ++ [call];
              navigated := navigated w;
              view := {| AddRepositoryContent.fullName := name;
                         AddRepositoryContent.loading := false;
                         AddRepositoryContent.error := message e |} |})).
Proof.
  cbv zeta. unfold AddRepositoryContent.handleSubmit.
  repeat split.
  - intros Hname.
    cbv [Async.and_then Async.update Async.current]. cbn [view AddRepositoryContent.setError
      AddRepositoryContent.fullName]. now rewrite Hname.
  - intros Hname repo Haccepted.
    cbv [Async.and_then Async.update Async.current Async.ensure Async.attempt
         Async.router_push].
    cbn [view AddRepositoryContent.setError AddRepositoryContent.fullName].
    rewrite Hname. cbn [negb]. unfold repositories.add.
    rewrite fetchWithAuth_runs.
    cbn [store fetched navigated view called method body headers
         AddRepositoryContent.setLoading AddRepositoryContent.setError
         AddRepositoryContent.fullName AddRepositoryContent.loading
         AddRepositoryContent.error].
    now rewrite Haccepted.
  - intros Hname e Hthrown.
    cbv [Async.and_then Async.update Async.current Async.ensure Async.attempt
         Async.router_push].
    cbn [view AddRepositoryContent.setError AddRepositoryContent.fullName].
    rewrite Hname. cbn [negb]. unfold repositories.add.
    rewrite fetchWithAuth_runs.
    cbn [store fetched navigated view called method body headers
         AddRepositoryContent.setLoading AddRepositoryContent.setError
         AddRepositoryContent.fullName AddRepositoryContent.loading
         AddRepositoryContent.error].
    now rewrite Hthrown.
Qed.

Lemma add_repository_outcome_witness :
  AddRepositoryContent.handleSubmit None accepting
    (opened restored (AddRepositoryContent.mkState "/" false "old"))
  = (Return tt,
     {| store := restored;
        fetched :=
          [{| url := "http://localhost:8000/api/repositories";
              init := {| method := Some "POST";
                         body := Some (JObject [("full_name", JString "/")]);
                         headers := [("Content-Type", "application/json");
                                     ("Authorization", "Bearer a")] |} |}];
        navigated := ["/repositories/r1"];
        view := AddRepositoryContent.mkState "/" false "" |}).
Proof.
  apply (proj1 (proj2 (add_repository_outcome None accepting
                         (opened restored (AddRepositoryContent.mkState "/" false "old"))))
           eq_refl echo_repository).
  reflexivity.
Defined.

(** X27.  [loadRepositories] never throws and always ends with [loading]
    false, after one call that lists the active repositories.  When the
    list arrives it replaces the repositories and the error is left as it
    was: an error shown by an earlier failure stays on the page.  When the
    call fails the repositories are left as they were and the error is
    the message of what was thrown. *)
Theorem loadRepositories_outcome base service (w : Env RepositoriesContent.State) :
  let call :=
    {| url := (repositories.API_BASE_URL base
               ++ "/api/repositories?include_inactive=false")%string;
       init := {| method := None; body := None;
                  headers := sent_headers true (store w) [] |} |} in
  (forall data,
     on_list service (length (fetched w)) call = Responded (Ok (Body data)) ->
     RepositoriesContent.loadRepositories base service w
     = (Return tt,
        {| store := store w; fetched := fetched w ++ [call]; navigated := navigated w;
           view := {| RepositoriesContent.repos := data;
                      RepositoriesContent.loading := false;
                      RepositoriesContent.error :=
                        RepositoriesContent.error (view w) |} |}))
  /\ (forall e,
        settle_request (on_list service (length (fetched w)) call) = Throw e ->
        RepositoriesContent.loadRepositories base service w
        = (Return tt,
           {| store := store w; fetched := fetched w ++ [call];
              navigated := navigated w;
              view := {| RepositoriesContent.repos :=
                           RepositoriesContent.repos (view w);
                         RepositoriesContent.loading := false;
                         RepositoriesContent.error := message e |} |})).
Proof.
  cbv zeta. unfold RepositoriesContent.loadRepositories, repositories.list.
  split.
  - intros data Harrived.
    cbv [Async.and_then Async.update Async.ensure Async.attempt].
    rewrite fetchWithAuth_runs.
    cbn [store fetched navigated view called method body headers
         repositories.no_options String.append].
    now rewrite Harrived.
  - intros e Hthrown.
    cbv [Async.and_then Async.update Async.ensure Async.attempt].
    rewrite fetchWithAuth_runs.
    cbn [store fetched navigated view called method body headers
         repositories.no_options String.append].
    now rewrite Hthrown.
Qed.

Lemma loadRepositories_outcome_witness :
  RepositoriesContent.loadRepositories None accepting
    (opened fresh (RepositoriesContent.mkState [] false "Rate limited"))
  = (Return tt,
     {| store := fresh;
        fetched :=
          [{| url := "http://localhost:8000/api/repositories?include_inactive=false";
              init := {| method := None; body := None;
                         headers := [("Content-Type", "application/json")] |} |}];
        navigated := [];
        view := RepositoriesContent.mkState [echo_repository] false "Rate limited" |}).
Proof.
  apply (proj1 (loadRepositories_outcome None accepting
                  (opened fresh (RepositoriesContent.mkState [] false "Rate limited")))
           [echo_repository]).
  reflexivity.
Defined.

(** X28.  [handleSync] never throws.  When the sync call fails it is the
    only call made: the list is not loaded again, the page is left as it
    was and the error goes to the console alone.  When it succeeds the
    list is loaded once more, by a second call. *)
Theorem handleSync_outcome base service id (w : Env RepositoriesContent.State) :
  let call :=
    {| url := (repositories.API_BASE_URL base ++ "/api/repositories/" ++ id
               ++ "/sync")%string;
       init := {| method := Some "POST"; body := None;
                  headers := sent_headers true (store w) [] |} |} in
  (forall e,
     settle_request (on_sync service (length (fetched w)) call) = Throw e ->
     RepositoriesContent.handleSync base service id w
     = (Return tt,
        {| store := {| session := session (store w); storage := storage (store w);
                       requests := requests (store w);
                       console := console (store w) ++ [("Sync failed:", e)] |};
           fetched := fetched w ++ [call];
           navigated := navigated w;
           view := view w |}))
  /\ (forall result,
        on_sync service (length (fetched w)) call = Responded (Ok (Body result)) ->
        RepositoriesContent.handleSync base service id w
        = RepositoriesContent.loadRepositories base service (called call w)
        /\ exists w',
             RepositoriesContent.handleSync base service id w = (Return tt, w')
             /\ length (fetched w') = length (fetched w) + 2
             /\ RepositoriesContent.loading (view w') = false).
Proof.
  cbv zeta. unfold RepositoriesContent.handleSync, repositories.sync.
  split.
  - intros e Hthrown.
    cbv [Async.and_then Async.attempt Async.on_store console_error].
    rewrite fetchWithAuth_runs.
    cbn [store fetched navigated view called method body headers].
    now rewrite Hthrown.
  - intros result Hsynced.
    assert (Hrun :
      Async.attempt
        (Async.and_then
           (repositories.fetchWithAuth true (on_sync service)
              (repositories.API_BASE_URL base ++ "/api/repositories/" ++ id ++ "/sync")
              {| method := Some "POST"; body := None; headers := [] |})
           (fun _ => RepositoriesContent.loadRepositories base service))
        (fun err => Async.on_store (console_error "Sync failed:" err)) w
      = RepositoriesContent.loadRepositories base service
          (called {| url := (repositories.API_BASE_URL base ++ "/api/repositories/"
                             ++ id ++ "/sync")%string;
                     init := {| method := Some "POST"; body := None;
                                headers := sent_headers true (store w) [] |} |} w)).
    { unfold Async.attempt, Async.and_then at 1.
      rewrite fetchWithAuth_runs.
      cbn [method body headers]. rewrite Hsynced. cbn [settle_request].
      set (w1 := called _ w).
      unfold RepositoriesContent.loadRepositories, repositories.list.
      cbv [Async.and_then Async.update Async.ensure Async.attempt].
      rewrite fetchWithAuth_runs.
      destruct (settle_request _); reflexivity. }
    split; [exact Hrun |].
    rewrite Hrun.
    unfold RepositoriesContent.loadRepositories, repositories.list.
    cbv [Async.and_then Async.update Async.ensure Async.attempt].
    rewrite fetchWithAuth_runs.
    destruct (settle_request _); eexists; (split; [reflexivity |]);
      cbn [fetched called view RepositoriesContent.setLoading
           RepositoriesContent.loading];
      rewrite !length_app; cbn [length]; (split; [lia | reflexivity]).
Qed.

Lemma handleSync_outcome_witness :
  RepositoriesContent.handleSync None bad_gateway "r1"
    (opened fresh RepositoriesContent.mounted)
  = (Return tt,
     {| store := {| session := session fresh; storage := storage fresh;
                    requests := requests fresh;
                    console := [("Sync failed:", mkError "Error" "Request failed")] |};
        fetched :=
          [{| url := "http://localhost:8000/api/repositories/r1/sync";
              init := {| method := Some "POST"; body := None;
                         headers := [("Content-Type", "application/json")] |} |}];
        navigated := [];
        view := RepositoriesContent.mounted |}).
Proof.
  apply (proj1 (handleSync_outcome None bad_gateway "r1"
                  (opened fresh RepositoriesContent.mounted))
           (mkError "Error" "Request failed")).
  reflexivity.
Defined.
